(** * django-tex: the compile-and-print core ([django_tex/core.py])

    A shallow embedding of [TexBuildCore] and of the library calls it
    makes, followed by the properties of the orchestration sequence:
    write the source into a temporary directory, run the interpreter
    through the shell, look at the exit code and at the produced file,
    hand the file to a call back, and clean up. *)

From stdpp Require Import base option list strings gmap.
From Stdlib Require Import ZArith NArith Strings.Byte.

Local Open Scope N_scope.

(** ** The Python values the module works with *)

Module Py.

(** A Python [str] is a sequence of code points, a [bytes] object a
    sequence of bytes.  The two are kept apart because the module
    encodes on writing and decodes on reading. *)
Abbreviation str := (list N).
Abbreviation bytes := (list byte).

(** String literals of the source, as code points. *)
Fixpoint py (s : string) : str :=
  match s with
  | EmptyString => []
  | String a s' => Ascii.N_of_ascii a :: py s'
  end.

Definition dquote : N := 34.
Definition squote : N := 39.
Definition sep : N := 47.

(** [n * s] for an [int] and a [str]: no repetition at all when [n <= 0]. *)
Definition str_mul (n : Z) (s : str) : str := concat (replicate (Z.to_nat n) s).

(** The truth value of a sequence: it is not empty. *)
Definition truthy {A} (l : list A) : bool :=
  match l with
  | [] => false
  | _ :: _ => true
  end.

(** [getattr(settings, name, default)] on a setting that may be unset. *)
Definition getattr {A} (field : option A) (default : A) : A :=
  match field with
  | Some v => v
  | None => default
  end.

(** *** The utf-8 codec, in strict mode *)

Definition byte_of (n : N) : byte :=
  match Byte.of_N n with
  | Some b => b
  | None => Byte.x00
  end.

Definition trail (n : N) : byte := byte_of (N.lor 0x80 (N.land n 0x3F)).

Definition is_surrogate (c : N) : bool := (0xD800 <=? c) && (c <=? 0xDFFF).

Definition utf8_encode_char (c : N) : option bytes :=
  if c <? 0x80 then Some [byte_of c]
  else if c <? 0x800 then
    Some [byte_of (N.lor 0xC0 (N.shiftr c 6)); trail c]
  else if c <? 0x10000 then
    if is_surrogate c then None
    else Some [byte_of (N.lor 0xE0 (N.shiftr c 12)); trail (N.shiftr c 6); trail c]
  else if c <? 0x110000 then
    Some [byte_of (N.lor 0xF0 (N.shiftr c 18)); trail (N.shiftr c 12);
          trail (N.shiftr c 6); trail c]
  else None.

(** [s.encode('utf-8')]: [None] stands for [UnicodeEncodeError]. *)
Fixpoint utf8_encode (s : str) : option bytes :=
  match s with
  | [] => Some []
  | c :: s' =>
      match utf8_encode_char c, utf8_encode s' with
      | Some bs, Some rest => Some (bs ++ rest)
      | _, _ => None
      end
  end.

Definition is_trail (b : byte) : bool :=
  let n := Byte.to_N b in (0x80 <=? n) && (n <? 0xC0).

Definition low6 (b : byte) : N := N.land (Byte.to_N b) 0x3F.

(** A decoded scalar is kept when it is not an overlong form, not a
    surrogate and not beyond U+10FFFF. *)
Definition scalar_ok (lo c : N) : bool :=
  (lo <=? c) && negb (is_surrogate c) && (c <? 0x110000).

(** [b.decode('utf-8')]: [None] stands for [UnicodeDecodeError]. *)
Fixpoint utf8_decode (bs : bytes) : option str :=
  match bs with
  | [] => Some []
  | b0 :: r0 =>
      let n0 := Byte.to_N b0 in
      if n0 <? 0x80 then cons n0 <$> utf8_decode r0
      else if n0 <? 0xC0 then None
      else if n0 <? 0xE0 then
        match r0 with
        | b1 :: r1 =>
            let c := N.lor (N.shiftl (N.land n0 0x1F) 6) (low6 b1) in
            if is_trail b1 && scalar_ok 0x80 c
            then cons c <$> utf8_decode r1 else None
        | _ => None
        end
      else if n0 <? 0xF0 then
        match r0 with
        | b1 :: b2 :: r2 =>
            let c := N.lor (N.shiftl (N.land n0 0x0F) 12)
                       (N.lor (N.shiftl (low6 b1) 6) (low6 b2)) in
            if is_trail b1 && is_trail b2 && scalar_ok 0x800 c
            then cons c <$> utf8_decode r2 else None
        | _ => None
        end
      else if n0 <? 0xF8 then
        match r0 with
        | b1 :: b2 :: b3 :: r3 =>
            let c := N.lor (N.shiftl (N.land n0 0x07) 18)
                       (N.lor (N.shiftl (low6 b1) 12)
                          (N.lor (N.shiftl (low6 b2) 6) (low6 b3))) in
            if is_trail b1 && is_trail b2 && is_trail b3 && scalar_ok 0x10000 c
            then cons c <$> utf8_decode r3 else None
        | _ => None
        end
      else None
  end.

(** Reading in text mode with the default [newline=None]: the line
    endings CR LF and CR come back as LF.  (Writing in text mode
    translates LF to [os.linesep], which is LF on the unix systems
    this module is written for.) *)
Fixpoint universal_newlines (s : str) : str :=
  match s with
  | [] => []
  | c :: r =>
      if c =? 13 then
        10 :: match r with
              | d :: r' => if d =? 10 then universal_newlines r' else universal_newlines r
              | [] => []
              end
      else c :: universal_newlines r
  end.

(** *** [os.path] (posixpath) *)

Definition startswith_sep (p : str) : bool :=
  match p with
  | c :: _ => c =? sep
  | [] => false
  end.

Definition endswith_sep (p : str) : bool :=
  match last p with
  | Some c => c =? sep
  | None => false
  end.

(** [os.path.join(a, b)] *)
Definition join (a b : str) : str :=
  if startswith_sep b then b
  else if bool_decide (a = []) || endswith_sep a then a ++ b
  else a ++ sep :: b.

(** [(p[:i], p[i:])] for [i = p.rfind('/') + 1] *)
Fixpoint rsplit (p : str) : str * str :=
  match p with
  | [] => ([], [])
  | c :: r =>
      match rsplit r with
      | ([], _) => if c =? sep then ([c], r) else ([], c :: r)
      | (h, t) => (c :: h, t)
      end
  end.

(** [os.path.basename(p)] *)
Definition basename (p : str) : str := (rsplit p).2.

Fixpoint rstrip_sep (p : str) : str :=
  match p with
  | [] => []
  | c :: r =>
      match rstrip_sep r with
      | [] => if c =? sep then [] else [c]
      | r' => c :: r'
      end
  end.

(** [os.path.dirname(p)] *)
Definition dirname (p : str) : str :=
  let head := (rsplit p).1 in
  if forallb (N.eqb sep) head then head else rstrip_sep head.

(** *** [shlex.quote] *)

Definition between (lo hi c : N) : bool := (lo <=? c) && (c <=? hi).

(** The characters of [[\w@%+=:,./-]] under [re.ASCII]. *)
Definition safe_char (c : N) : bool :=
  between 48 57 c || between 65 90 c || between 97 122 c
  || bool_decide (c ∈ py "_@%+=:,./-").

(** [s.replace("'", "'\"'\"'")] *)
Definition escape_squote (s : str) : str :=
  flat_map (fun c => if c =? squote
                     then [squote; dquote; squote; dquote; squote]
                     else [c]) s.

Definition quote (s : str) : str :=
  match s with
  | [] => [squote; squote]
  | _ => if forallb safe_char s then s
         else squote :: escape_squote s ++ [squote]
  end.

(** [template.format(arg)] for a template with one [{}] field, as the
    entries of [PRINTING_DEVICE_OPTIONS] are. *)
Fixpoint format (template arg : str) : str :=
  match template with
  | [] => []
  | c :: r =>
      match r with
      | d :: r' => if (c =? 123) && (d =? 125) then arg ++ r' else c :: format r arg
      | [] => [c]
      end
  end.

(** *** Exceptions *)

(** What a [FileNotFoundError] carries: the message it was built with,
    or, when the operating system raised it, the path that was not
    found (errno 2). *)
Inductive fnf_args :=
| Message (msg : str)
| Errno2 (path : str).

(** Modelled from the spec: the exception classes of
    [django_tex/exceptions.py], which the module imports.  A
    [TexError] carries the text of the log and the source that was
    compiled, a [PrintError] its message; both are plain exceptions. *)
Inductive django_tex_exception :=
| TexError (log source : str)
| PrintError (msg : str).

(** The exception classes the module meets: those of Python, those of
    [django_tex], and [OtherError] for an exception of any further
    class, none of which derives from [FileNotFoundError]. *)
Inductive exn :=
| ValueError (msg : str)
| FileExistsError (path : str)
| FileNotFoundError (args : fnf_args)
| NotADirectoryError (path : str)
| IsADirectoryError (path : str)
| UnicodeEncodeError
| UnicodeDecodeError
| DjangoTex (e : django_tex_exception)
| Exception_ (msg : str)
| OtherError (cls msg : str).

Coercion DjangoTex : django_tex_exception >-> exn.

(** [isinstance(e, FileNotFoundError)], the test of an
    [except FileNotFoundError] clause. *)
Definition is_FileNotFoundError (e : exn) : bool :=
  match e with
  | FileNotFoundError _ => true
  | _ => false
  end.

Inductive result (A : Type) :=
| Return (a : A)
| Raise (e : exn).
Arguments Return {A} a.
Arguments Raise {A} e.

(** *** The file system, processes and the log *)

Inductive node :=
| File (content : bytes)
| Dir.

(** [os.path.isfile(p)] *)
Definition isfile (fs : gmap str node) (p : str) : bool :=
  match fs !! p with
  | Some (File _) => true
  | _ => false
  end.

(** The prefix shared by the paths of all entries of directory [d]. *)
Definition with_sep (d : str) : str :=
  if bool_decide (d = []) || endswith_sep d then d else d ++ [sep].

(** [p] is directory [d] or lies somewhere below it. *)
Definition under (d p : str) : bool :=
  bool_decide (p = d) || bool_decide (with_sep d `prefix_of` p).

(** [shutil.rmtree(d)], which [TemporaryDirectory] runs on exit. *)
Definition rmtree (d : str) (fs : gmap str node) : gmap str node :=
  filter (fun kv => under d kv.1 = false) fs.

(** [subprocess.CompletedProcess] with both pipes captured. *)
Record CompletedProcess := {
  returncode : Z;
  stdout : bytes;
  stderr : bytes
}.

Inductive level := DEBUG | WARNING.

(** What a call does besides answering, in order.  A command that
    is run and a call back that is entered are recorded together with
    the file system they find. *)
Inductive event :=
| EvMkdtemp (dir : str)
| EvRmtree (dir : str)
| EvRun (cmd : str) (fs : gmap str node)
| EvLog (lvl : level) (msg : str)
| EvCall (tempdir pdf_filename : str) (fs : gmap str node).

(** The parts of the platform the module cannot know: the name
    [tempfile] picks for a new directory, what a shell command does to
    the files and answers, and the error, if any, with which the
    operating system refuses to create a file of a given name (a
    directory on the way that is missing or may not be entered, a
    name that is too long, another name of a file that is there, a
    device that is full). *)
Record platform := {
  mkdtemp : gmap str node -> str;
  shell : str -> gmap str node -> gmap str node * CompletedProcess;
  refuses : str -> gmap str node -> option exn
}.

(** *** Computations: a file system is threaded through, events are
    written out, and an exception ends the sequence. *)

Definition M (A : Type) : Type :=
  gmap str node -> list event * gmap str node * result A.

Definition ret {A} (a : A) : M A := fun fs => ([], fs, Return a).

Definition raise {A} (e : exn) : M A := fun fs => ([], fs, Raise e).

Definition bind {A B} (m : M A) (k : A -> M B) : M B := fun fs =>
  match m fs with
  | (ev, fs1, Return a) =>
      match k a fs1 with
      | (ev', fs2, r) => (ev ++ ev', fs2, r)
      end
  | (ev, fs1, Raise e) => (ev, fs1, Raise e)
  end.

(** [try: body / except <class>: handler]; inside the handler a bare
    [raise] re-raises the exception it is given. *)
Definition try_except {A} (body : M A) (caught : exn -> bool)
    (handler : exn -> M A) : M A := fun fs =>
  match body fs with
  | (ev, fs1, Raise e) =>
      if caught e then
        match handler e fs1 with
        | (ev', fs2, r) => (ev ++ ev', fs2, r)
        end
      else (ev, fs1, Raise e)
  | returned => returned
  end.

Definition emit (e : event) : M unit := fun fs => ([e], fs, Return tt).

Definition get_fs : M (gmap str node) := fun fs => ([], fs, Return fs).

(** [b.decode('utf-8')] as a step of a computation. *)
Definition decode (b : bytes) : M str :=
  match utf8_decode b with
  | Some s => ret s
  | None => raise UnicodeDecodeError
  end.

(** [with open(path, encoding='utf8') as f: f.read()] *)
Definition open_read (path : str) : M str := fun fs =>
  match fs !! path with
  | Some (File bs) =>
      match utf8_decode bs with
      | Some s => ([], fs, Return (universal_newlines s))
      | None => ([], fs, Raise UnicodeDecodeError)
      end
  | Some Dir => ([], fs, Raise (IsADirectoryError path))
  | None => ([], fs, Raise (FileNotFoundError (Errno2 path)))
  end.

(** [with open(path, 'rb') as f: f.read()] *)
Definition open_rb_read (path : str) : M bytes := fun fs =>
  match fs !! path with
  | Some (File bs) => ([], fs, Return bs)
  | Some Dir => ([], fs, Raise (IsADirectoryError path))
  | None => ([], fs, Raise (FileNotFoundError (Errno2 path)))
  end.

Definition logger_debug (msg : str) : M unit := emit (EvLog DEBUG msg).
Definition logger_warning (msg : str) : M unit := emit (EvLog WARNING msg).

(** A value handed over as a call back: either it can be called with
    a directory and a file name, or it cannot be called at all. *)
Inductive pyobj (R : Type) :=
| Callable (f : str -> str -> M R)
| NotCallable.
Arguments Callable {R} f.
Arguments NotCallable {R}.

Definition callable {R} (o : pyobj R) : bool :=
  match o with
  | Callable _ => true
  | NotCallable => false
  end.

(** [o(a, b)]: entering the call is an event of its own; an object
    that cannot be called raises [TypeError]. *)
Definition call {R} (o : pyobj R) (a b : str) : M R :=
  match o with
  | Callable f => bind (fun fs => ([EvCall a b fs], fs, Return tt)) (fun _ => f a b)
  | NotCallable => raise (OtherError (py "TypeError") (py "object is not callable"))
  end.

Section Platform.
Context (P : platform).

(** [run(cmd, shell=True, stdout=PIPE, stderr=PIPE)] *)
Definition run (cmd : str) : M CompletedProcess := fun fs =>
  match shell P cmd fs with
  | (fs', process) => ([EvRun cmd fs], fs', Return process)
  end.

(** [os.fsencode(path)] succeeds: file names are encoded as utf-8
    with [surrogateescape], which takes the surrogates U+DC80 to
    U+DCFF and no other. *)
Definition fsencodable (path : str) : bool :=
  forallb (fun c => negb (is_surrogate c) || ((0xDC80 <=? c) && (c <=? 0xDCFF))) path.

(** [with open(path, 'x', encoding='utf-8') as f: f.write(s)].
    Python encodes the name and rejects a null character in it before
    the operating system is asked; the operating system resolves the
    name and may refuse; an entry of that very name makes the
    exclusive creation fail; and the file is created before the text
    is encoded. *)
Definition open_x_write (path s : str) : M unit := fun fs =>
  if negb (fsencodable path) then ([], fs, Raise UnicodeEncodeError)
  else if bool_decide (0 ∈ path) then
    ([], fs, Raise (ValueError (py "embedded null byte")))
  else
    match refuses P path fs with
    | Some e => ([], fs, Raise e)
    | None =>
        match fs !! path with
        | Some _ => ([], fs, Raise (FileExistsError path))
        | None =>
            match utf8_encode s with
            | Some bs => ([], <[path := File bs]> fs, Return tt)
            | None => ([], <[path := File []]> fs, Raise UnicodeEncodeError)
            end
        end
    end.

(** [with tempfile.TemporaryDirectory() as tempdir: body] *)
Definition with_TemporaryDirectory {A} (body : str -> M A) : M A := fun fs =>
  let tempdir := mkdtemp P fs in
  match body tempdir (<[tempdir := Dir]> fs) with
  | (ev, fs1, r) => (EvMkdtemp tempdir :: ev ++ [EvRmtree tempdir], rmtree tempdir fs1, r)
  end.
End Platform.

(** The sequencing notation [x ← m; k] of stdpp is used for [bind]. *)
#[export] Instance M_ret : MRet M := @ret.
#[export] Instance M_bind : MBind M := fun A B k m => bind m k.

End Py.

Import Py.

(** ** [django_tex/core.py] *)

Module Core.

(** The attributes of [django.conf.settings] the module reads; each
    may be left unset. *)
Record Settings := {
  LATEX_INTERPRETER : option str;
  LATEX_RUN_COUNT : option Z;
  LATEX_INTERPRETER_OPTIONS : option str;
  LATEX_PRINTER : option str;
  LATEX_UNIX_PRINT_COMMAND : option str;
  LATEX_UNIX_PRINT_OPTIONS : option str
}.

Definition DEFAULT_INTERPRETER : str := py "lualatex".
Definition DEFAULT_RUN_COUNT : Z := 1.

Definition PRINTING_DEVICE_OPTIONS : gmap str str :=
  {[ py "lp" := py "-d {}"; py "lpr" := py "-P {}" ]}.

Record TexBuildCore := {
  source : str;
  base_filename : str;
  _extra_printing_option : str
}.

(** [TexBuildCore(source, base_filename)] *)
Definition __init__ (source base_filename : str) : TexBuildCore :=
  {| source := source; base_filename := base_filename; _extra_printing_option := [] |}.

Section Calls.
Context (P : platform) (settings : Settings).

Definition _process_tex {R} (self : TexBuildCore) (call_back : pyobj R) : M R :=
  if negb (callable call_back) then
    raise (ValueError (py "parameter call_back needs to be callable!"))
  else
    with_TemporaryDirectory P (fun tempdir =>
      let filename := join tempdir (base_filename self ++ py ".tex") in
      _ ← open_x_write P filename (source self);
      let latex_interpreter := getattr (LATEX_INTERPRETER settings) DEFAULT_INTERPRETER in
      let latex_run_count := getattr (LATEX_RUN_COUNT settings) DEFAULT_RUN_COUNT in
      let latex_interpreter_options := getattr (LATEX_INTERPRETER_OPTIONS settings) [] in
      let latex_call :=
        py " && " ++ latex_interpreter ++ py " -interaction=batchmode "
          ++ latex_interpreter_options ++ py " " ++ basename filename in
      let latex_command :=
        py "cd " ++ [dquote] ++ tempdir ++ [dquote] ++ py " "
          ++ str_mul latex_run_count latex_call in
      process ← run P latex_command;
      try_except
        (if (returncode process =? 1)%Z then
           log ← open_read (join tempdir (py "texput.log"));
           raise (TexError log (source self))
         else
           let pdf_temp_file := join tempdir (base_filename self ++ py ".pdf") in
           fs ← get_fs;
           if negb (isfile fs pdf_temp_file) then
             raise (FileNotFoundError
                      (Message (py "File " ++ pdf_temp_file ++ py " not found or is not a file!")))
           else
             call call_back tempdir (base_filename self ++ py ".pdf"))
        is_FileNotFoundError
        (fun e =>
           if truthy (stderr process) then
             msg ← decode (stderr process);
             raise (Exception_ msg)
           else raise e)).

Definition _get_pdf_worker (self : TexBuildCore) (tempdir pdf_filename : str) : M bytes :=
  open_rb_read (join tempdir pdf_filename).

Definition get_pdf (self : TexBuildCore) : M bytes :=
  _process_tex self (Callable (_get_pdf_worker self)).

Definition _print_pdf_worker_unix (self : TexBuildCore) (tempdir pdf_filename : str) : M unit :=
  let pdf_filename := join tempdir pdf_filename in
  let printer := LATEX_PRINTER settings in
  let print_command := getattr (LATEX_UNIX_PRINT_COMMAND settings) (py "lpr") in
  let print_options := getattr (LATEX_UNIX_PRINT_OPTIONS settings) [] in
  print_command ←
    match printer with
    | None =>
        _ ← logger_debug (py "No default printer set, using default.");
        mret print_command
    | Some printer =>
        match PRINTING_DEVICE_OPTIONS !! print_command with
        | None =>
            _ ← logger_warning
              (py "The unknown custom printing command '" ++ print_command
                 ++ py "' was defined and as well as a non default printer. Please edit 'PRINTING_DEVICE_OPTIONS' in the module according to your needs.");
            mret print_command
        | Some template =>
            let device_selection := format template (quote printer) in
            mret (print_command ++ py " " ++ device_selection)
        end
    end;
  let full_command :=
    print_command ++ py " " ++ print_options ++ py " "
      ++ _extra_printing_option self ++ py " " ++ quote pdf_filename in
  process ← run P full_command;
  if negb (returncode process =? 0)%Z then
    err ← decode (stderr process);
    raise (PrintError (py "Printing with '" ++ full_command
                         ++ py "' resulted in an error. '" ++ err ++ py "'"))
  else if (0 <? length (stderr process))%nat then
    err ← decode (stderr process);
    logger_warning (py "Printing with '" ++ full_command
                      ++ py "' did not result in an error but still wrote something, to stderr. ''"
                      ++ err)
  else mret tt.

(** [self._extra_printing_option = extra_printing_option] comes
    first; the object with the new attribute is the one whose
    bound method is handed over. *)
Definition print_pdf_unix (self : TexBuildCore) (extra_printing_option : str) : M unit :=
  let self := {| source := source self; base_filename := base_filename self;
                 _extra_printing_option := extra_printing_option |} in
  _process_tex self (Callable (_print_pdf_worker_unix self)).

Definition run_tex (source : str) : M bytes :=
  let build_core := __init__ source (py "texput") in
  get_pdf build_core.

Section Templates.
(** The template engine registered as ['tex'] is Django's; only
    what it answers for a template name and a context is used. *)
Context {Ctx : Type} (render_template_with_context : str -> Ctx -> M str).

Definition compile_template_to_pdf (template_name : str) (context : Ctx) : M bytes :=
  source ← render_template_with_context template_name context;
  run_tex source.

Definition compile_template_and_sent_to_printer
    (template_name : str) (context : Ctx) (extra_options : str) : M unit :=
  source ← render_template_with_context template_name context;
  let build_core := __init__ source (py "texput") in
  print_pdf_unix build_core extra_options.
End Templates.
End Calls.

End Core.

Import Core.

(** ** Notions the properties are stated with *)

Module Attempt.

Section Attempt.
Context (P : platform) (settings : Settings) (self : TexBuildCore).

(** The directory a call of [_process_tex] works in, and the two
    files it names there. *)
Definition workspace (fs : gmap str node) : str := mkdtemp P fs.

Definition tex_file (fs : gmap str node) : str :=
  join (workspace fs) (base_filename self ++ py ".tex").

Definition pdf_file (fs : gmap str node) : str :=
  join (workspace fs) (base_filename self ++ py ".pdf").

Definition log_file (fs : gmap str node) : str :=
  join (workspace fs) (py "texput.log").

(** The file name the call back is given. *)
Definition pdf_name : str := base_filename self ++ py ".pdf".

(** The value of the local [latex_command] of [_process_tex]. *)
Definition latex_command (tempdir filename : str) : str :=
  let latex_interpreter := getattr (LATEX_INTERPRETER settings) DEFAULT_INTERPRETER in
  let latex_run_count := getattr (LATEX_RUN_COUNT settings) DEFAULT_RUN_COUNT in
  let latex_interpreter_options := getattr (LATEX_INTERPRETER_OPTIONS settings) [] in
  let latex_call :=
    py " && " ++ latex_interpreter ++ py " -interaction=batchmode "
      ++ latex_interpreter_options ++ py " " ++ basename filename in
  py "cd " ++ [dquote] ++ tempdir ++ [dquote] ++ py " "
    ++ str_mul latex_run_count latex_call.

(** A call started on [fs] gets as far as the interpreter: the
    source is written, which gives [fs1]; the command run on [fs1]
    leaves [fs2] and answers [process]. *)
Definition compile_attempt (fs : gmap str node)
    : option (gmap str node * gmap str node * CompletedProcess) :=
  let tempdir := workspace fs in
  match open_x_write P (tex_file fs) (source self) (<[tempdir := Dir]> fs) with
  | (_, fs1, Return _) =>
      match shell P (latex_command tempdir (tex_file fs)) fs1 with
      | (fs2, process) => Some (fs1, fs2, process)
      end
  | (_, _, Raise _) => None
  end.

(** What a call that got as far as the interpreter amounts to, when
    the [try] block then has the events [ev], leaves [fs3] and ends
    with [r]: the work space is made first and removed last. *)
Definition ended {R : Type} (fs fs1 : gmap str node) (ev : list event)
    (fs3 : gmap str node) (r : result R)
    : list event * gmap str node * result R :=
  (EvMkdtemp (workspace fs)
     :: EvRun (latex_command (workspace fs) (tex_file fs)) fs1
     :: ev ++ [EvRmtree (workspace fs)],
   rmtree (workspace fs) fs3, r).
End Attempt.

(** The command line of the interface description: [cd] into the
    work space, then [run_count] times the interpreter in batch mode on
    the file, each introduced by [&&]. *)
Definition compiler_invocation
    (interpreter options : str) (run_count : nat) (workspace base_filename : str) : str :=
  py "cd " ++ [dquote] ++ workspace ++ [dquote] ++ py " "
    ++ concat (replicate run_count
                 (py " && " ++ interpreter ++ py " -interaction=batchmode "
                    ++ options ++ py " " ++ base_filename ++ py ".tex")).

(** A file name: no path separator in it. *)
Definition is_filename (name : str) : Prop := sep ∉ name.

(** The same platform, but every command answers exit code [rc]. *)
Definition answering (rc : Z) (P : platform) : platform :=
  {| mkdtemp := mkdtemp P;
     shell := fun cmd fs =>
       match shell P cmd fs with
       | (fs', process) =>
           (fs', {| returncode := rc; stdout := stdout process; stderr := stderr process |})
       end;
     refuses := refuses P |}.

End Attempt.

Import Attempt.

(** ** The print command, as the interface description has it *)

Module Printing.

Section Printing.
Context (settings : Settings) (self : TexBuildCore).

Definition command : str := getattr (LATEX_UNIX_PRINT_COMMAND settings) (py "lpr").

(** The command with the flag that selects the printer: [-d] for [lp],
    [-P] for [lpr], none for another command or without a printer. *)
Definition device_command : str :=
  match LATEX_PRINTER settings with
  | Some device =>
      if bool_decide (command = py "lp") then py "lp -d " ++ quote device
      else if bool_decide (command = py "lpr") then py "lpr -P " ++ quote device
      else command
  | None => command
  end.

(** What follows the command: the options of the settings, the extra
    option of the caller, and the quoted path of the pdf file. *)
Definition arguments (tempdir pdf_filename : str) : str :=
  py " " ++ getattr (LATEX_UNIX_PRINT_OPTIONS settings) [] ++ py " "
    ++ _extra_printing_option self ++ py " " ++ quote (join tempdir pdf_filename).

Definition print_invocation (tempdir pdf_filename : str) : str :=
  device_command ++ arguments tempdir pdf_filename.

Definition unknown_command_warning : str :=
  py "The unknown custom printing command '" ++ command
    ++ py "' was defined and as well as a non default printer. Please edit 'PRINTING_DEVICE_OPTIONS' in the module according to your needs.".

(** What is logged before the command runs. *)
Definition device_notice : list event :=
  match LATEX_PRINTER settings with
  | Some _ =>
      if bool_decide (command = py "lp") || bool_decide (command = py "lpr") then []
      else [EvLog WARNING unknown_command_warning]
  | None => [EvLog DEBUG (py "No default printer set, using default.")]
  end.

Definition error_message (full_command err : str) : str :=
  py "Printing with '" ++ full_command ++ py "' resulted in an error. '" ++ err ++ py "'".

Definition stderr_warning (full_command err : str) : str :=
  py "Printing with '" ++ full_command
    ++ py "' did not result in an error but still wrote something, to stderr. ''" ++ err.
End Printing.

End Printing.

Import Printing.

(** ** Machines to run the module on *)

Module Scenario.

Definition tmp : str := py "/tmp/tmpk3q9x".

Definition disk : gmap str node := {[ py "/tmp" := Dir ]}.

(** The one reason the machines below have to refuse the creation
    of a file: the directory named before the last separator is
    missing, or is a file. *)
Definition directory_missing (path : str) (fs : gmap str node) : option exn :=
  match fs !! dirname path with
  | Some Dir => None
  | Some (File _) => Some (NotADirectoryError path)
  | None => Some (FileNotFoundError (Errno2 path))
  end.

(** A machine on which every command leaves the given files behind and
    answers with the given exit code and error output. *)
Definition machine (files : list (str * node)) (rc : Z) (err : bytes) : platform :=
  {| mkdtemp := fun _ => tmp;
     shell := fun _ fs =>
       (list_to_map files ∪ fs, {| returncode := rc; stdout := []; stderr := err |});
     refuses := directory_missing |}.

Definition unset : Settings :=
  {| LATEX_INTERPRETER := None; LATEX_RUN_COUNT := None;
     LATEX_INTERPRETER_OPTIONS := None; LATEX_PRINTER := None;
     LATEX_UNIX_PRINT_COMMAND := None; LATEX_UNIX_PRINT_OPTIONS := None |}.

(** Settings for two runs of [pdflatex] with shell escape. *)
Definition twice : Settings :=
  {| LATEX_INTERPRETER := Some (py "pdflatex"); LATEX_RUN_COUNT := Some 2%Z;
     LATEX_INTERPRETER_OPTIONS := Some (py "-shell-escape"); LATEX_PRINTER := None;
     LATEX_UNIX_PRINT_COMMAND := None; LATEX_UNIX_PRINT_OPTIONS := None |}.

(** Settings that send the output to printer [hp 1] with [lp]. *)
Definition to_hp1 : Settings :=
  {| LATEX_INTERPRETER := None; LATEX_RUN_COUNT := None;
     LATEX_INTERPRETER_OPTIONS := None; LATEX_PRINTER := Some (py "hp 1");
     LATEX_UNIX_PRINT_COMMAND := Some (py "lp");
     LATEX_UNIX_PRINT_OPTIONS := Some (py "-o media=a4") |}.

(** The same with a print command of one's own. *)
Definition to_hp1_by_script : Settings :=
  {| LATEX_INTERPRETER := None; LATEX_RUN_COUNT := None;
     LATEX_INTERPRETER_OPTIONS := None; LATEX_PRINTER := Some (py "hp 1");
     LATEX_UNIX_PRINT_COMMAND := Some (py "print.sh");
     LATEX_UNIX_PRINT_OPTIONS := None |}.

Definition pdf_bytes : bytes := [Byte.x25; Byte.x50; Byte.x44; Byte.x46].

Definition texput : TexBuildCore := __init__ (py "\documentclass{article}") (py "texput").

(** A call back that finds its file gone. *)
Definition vanished (tempdir pdf_filename : str) : M bytes :=
  raise (FileNotFoundError (Errno2 (join tempdir pdf_filename))).

Definition at_tmp (name : string) : str := tmp ++ sep :: py name.

(** [texput] to be printed in two copies. *)
Definition two_copies : TexBuildCore :=
  {| source := source texput; base_filename := base_filename texput;
     _extra_printing_option := py "-n 2" |}.

(** A call back that fails for a reason of its own. *)
Definition jammed (tempdir pdf_filename : str) : M bytes :=
  raise (PrintError (py "paper jam")).

(** The pdf file [lualatex] makes of [texput.tex]. *)
Definition texput_pdf : list (str * node) := [(at_tmp "texput.pdf", File pdf_bytes)].

(** The disk once the source of [self] is written, and once a
    command has left [files] behind. *)
Definition written (self : TexBuildCore) : gmap str node :=
  <[tmp ++ sep :: base_filename self ++ py ".tex"
      := File (default [] (utf8_encode (source self)))]> (<[tmp := Dir]> disk).

Definition left (files : list (str * node)) (self : TexBuildCore) : gmap str node :=
  list_to_map files ∪ written self.

Definition answer (rc : Z) (err : bytes) : CompletedProcess :=
  {| returncode := rc; stdout := []; stderr := err |}.

End Scenario.

(** ** Further notions and machines *)

Module Further.

(** The object as [print_pdf_unix] leaves it: the extra printing
    option is the one of the call. *)
Definition with_option (self : TexBuildCore) (extra_printing_option : str) : TexBuildCore :=
  {| source := source self; base_filename := base_filename self;
     _extra_printing_option := extra_printing_option |}.

(** The same platform, but every command answers [out] on its
    standard output. *)
Definition saying (out : bytes) (P : platform) : platform :=
  {| mkdtemp := mkdtemp P;
     shell := fun cmd fs =>
       match shell P cmd fs with
       | (fs', process) =>
           (fs', {| returncode := returncode process; stdout := out;
                    stderr := stderr process |})
       end;
     refuses := refuses P |}.


(** A base name with a directory part, and an absolute one. *)
Definition nested : TexBuildCore := __init__ (source Scenario.texput) (py "sub/texput").

Definition absolute : TexBuildCore := __init__ (source Scenario.texput) (py "/srv/out").

Definition disk_srv : gmap str node := {[ py "/tmp" := Dir; py "/srv" := Dir ]}.

(** Settings that ask for no run at all. *)
Definition no_run : Settings :=
  {| LATEX_INTERPRETER := None; LATEX_RUN_COUNT := Some 0%Z;
     LATEX_INTERPRETER_OPTIONS := None; LATEX_PRINTER := None;
     LATEX_UNIX_PRINT_COMMAND := None; LATEX_UNIX_PRINT_OPTIONS := None |}.

(** A template engine that knows one template, and one that knows none. *)
Definition renders (template_name : str) (context : unit) : M str :=
  ret (source Scenario.texput).

Definition template_missing (template_name : str) (context : unit) : M str :=
  raise (OtherError (py "TemplateDoesNotExist") template_name).

(** What [lualatex] leaves when it stops at an error: a log, and the
    pages it had finished. *)
Definition log_and_pdf : list (str * node) :=
  [(Scenario.at_tmp "texput.log", File [Byte.x21; Byte.x0a]);
   (Scenario.at_tmp "texput.pdf", File Scenario.pdf_bytes)].

(** A log in latin-1. *)
Definition latin1_log : list (str * node) :=
  [(Scenario.at_tmp "texput.log", File [Byte.xe9; Byte.x0a])].

End Further.

Import Further.

(** * Properties *)

Arguments py : simpl never.
Arguments join : simpl never.
Arguments basename : simpl never.
Arguments dirname : simpl never.
Arguments rmtree : simpl never.
Arguments str_mul : simpl never.
Arguments quote : simpl never.
Arguments format : simpl never.
Arguments utf8_decode : simpl never.
Arguments utf8_encode : simpl never.
Arguments universal_newlines : simpl never.

(** ** The computations: unfolding rules *)

Section Rules.
Context {A B : Type}.

Lemma bind_Return (m : M A) (k : A -> M B) fs ev fs1 a :
  m fs = (ev, fs1, Return a) ->
  (m ≫= k) fs = ((ev ++ (k a fs1).1.1), (k a fs1).1.2, (k a fs1).2).
Proof.
  intros H. unfold mbind, M_bind, bind. rewrite H.
  by destruct (k a fs1) as [[? ?] ?].
Qed.

Lemma bind_Raise (m : M A) (k : A -> M B) fs ev fs1 e :
  m fs = (ev, fs1, Raise e) -> (m ≫= k) fs = (ev, fs1, Raise e).
Proof. intros H. unfold mbind, M_bind, bind. by rewrite H. Qed.

Lemma try_except_Return (body : M A) caught handler fs ev fs1 a :
  body fs = (ev, fs1, Return a) ->
  try_except body caught handler fs = (ev, fs1, Return a).
Proof. intros H. unfold try_except. by rewrite H. Qed.

Lemma try_except_pass (body : M A) caught handler fs ev fs1 e :
  body fs = (ev, fs1, Raise e) -> caught e = false ->
  try_except body caught handler fs = (ev, fs1, Raise e).
Proof. intros H Hc. unfold try_except. by rewrite H, Hc. Qed.

Lemma try_except_caught (body : M A) caught handler fs ev fs1 e :
  body fs = (ev, fs1, Raise e) -> caught e = true ->
  try_except body caught handler fs
  = (ev ++ (handler e fs1).1.1, (handler e fs1).1.2, (handler e fs1).2).
Proof.
  intros H Hc. unfold try_except. rewrite H, Hc.
  by destruct (handler e fs1) as [[? ?] ?].
Qed.
End Rules.

(** ** The library calls on some inputs *)

Example quote_plain : quote (py "hp1") = py "hp1".
Proof. reflexivity. Qed.

Example quote_blank : quote (py "hp 1") = py "'hp 1'".
Proof. reflexivity. Qed.

Example quote_squote :
  quote (py "it's") = squote :: py "it" ++ [squote; dquote; squote; dquote; squote] ++ py "s'".
Proof. reflexivity. Qed.

Example quote_empty : quote [] = py "''".
Proof. reflexivity. Qed.

Example join_relative : join (py "/tmp/x") (py "texput.tex") = py "/tmp/x/texput.tex".
Proof. reflexivity. Qed.

Example join_absolute : join (py "/tmp/x") (py "/etc/motd") = py "/etc/motd".
Proof. reflexivity. Qed.

Example basename_of_path : basename (py "/tmp/x/texput.tex") = py "texput.tex".
Proof. reflexivity. Qed.

Example dirname_of_path : dirname (py "/tmp/x//texput.tex") = py "/tmp/x".
Proof. reflexivity. Qed.

Example str_mul_negative : str_mul (-3) (py "ab") = [].
Proof. reflexivity. Qed.

Example utf8_encode_euro : utf8_encode [0x20AC] = Some [Byte.xe2; Byte.x82; Byte.xac].
Proof. reflexivity. Qed.

Example utf8_encode_surrogate : utf8_encode [0xD800] = None.
Proof. reflexivity. Qed.

Example utf8_decode_euro : utf8_decode [Byte.xe2; Byte.x82; Byte.xac] = Some [0x20AC].
Proof. reflexivity. Qed.

Example utf8_decode_overlong : utf8_decode [Byte.xc0; Byte.x80] = None.
Proof. reflexivity. Qed.

Example utf8_decode_latin1 : utf8_decode [Byte.xe9] = None.
Proof. reflexivity. Qed.

Example universal_newlines_crlf :
  universal_newlines [97; 13; 10; 98; 13; 99] = [97; 10; 98; 10; 99].
Proof. reflexivity. Qed.

(** A whole call on a machine with [lualatex]: the bytes of the pdf
    file come back and the disk is as it was. *)
Example run_tex_returns_pdf :
  let P := Scenario.machine Scenario.texput_pdf 0 [] in
  (run_tex P Scenario.unset (source Scenario.texput) Scenario.disk).2
  = Return Scenario.pdf_bytes
  /\ (run_tex P Scenario.unset (source Scenario.texput) Scenario.disk).1.2 = Scenario.disk.
Proof. split; reflexivity. Qed.

(** ** Paths and the file system *)

Lemma rsplit_no_sep (x : str) : sep ∉ x -> rsplit x = ([], x).
Proof.
  induction x as [|c x IH]; intros Hx; [done|].
  apply not_elem_of_cons in Hx as [Hc Hx]. cbn [rsplit]. rewrite (IH Hx).
  destruct (N.eqb_spec c sep); [congruence | done].
Qed.

Lemma rsplit_app_sep (a x : str) : sep ∉ x -> rsplit (a ++ sep :: x) = (a ++ [sep], x).
Proof.
  intros Hx. induction a as [|c a IH]; cbn [rsplit app].
  - rewrite (rsplit_no_sep x Hx). by rewrite N.eqb_refl.
  - rewrite IH. by destruct a.
Qed.

Lemma endswith_sep_split (d : str) : endswith_sep d = true -> exists d', d = d' ++ [sep].
Proof.
  unfold endswith_sep. destruct (last d) as [c|] eqn:Hl; [|done].
  intros Hc%N.eqb_eq. subst c. apply last_Some in Hl as [d' ->]. by exists d'.
Qed.

Lemma filename_not_absolute (name : str) : is_filename name -> startswith_sep name = false.
Proof.
  destruct name as [|c name]; [done|]. intros Hn. cbn.
  apply N.eqb_neq. intros ->. apply Hn. by left.
Qed.

(** The base name of a file placed in a directory is its name. *)
Lemma basename_join (d name : str) : is_filename name -> basename (join d name) = name.
Proof.
  intros Hn. unfold basename, join. rewrite (filename_not_absolute name Hn).
  destruct (bool_decide (d = [])) eqn:Hd.
  - apply bool_decide_eq_true in Hd as ->. cbn. by rewrite rsplit_no_sep.
  - cbn [orb]. destruct (endswith_sep d) eqn:He.
    + apply endswith_sep_split in He as [d' ->].
      rewrite <- app_assoc. cbn [app]. by rewrite rsplit_app_sep.
    + by rewrite rsplit_app_sep.
Qed.

Lemma is_filename_ext (base : str) (ext : string) :
  is_filename base -> bool_decide (sep ∈ py ext) = false -> is_filename (base ++ py ext).
Proof.
  intros Hb He. unfold is_filename. rewrite elem_of_app. intros [?|Hin]; [done|].
  by apply bool_decide_eq_false in He.
Qed.

(** A file placed in a directory lies below it. *)
Lemma under_join (d name : str) : startswith_sep name = false -> under d (join d name) = true.
Proof.
  intros Hn. unfold under, join, with_sep. rewrite Hn.
  apply orb_true_iff. right. apply bool_decide_eq_true.
  destruct (bool_decide (d = []) || endswith_sep d).
  - by apply prefix_app_r.
  - exists name. by rewrite <- app_assoc.
Qed.

Lemma rmtree_under (d p : str) (fs : gmap str node) :
  under d p = true -> rmtree d fs !! p = None.
Proof.
  intros Hu. unfold rmtree. apply map_lookup_filter_None. right.
  intros x _. cbn. by rewrite Hu.
Qed.

Lemma rmtree_other (d p : str) (fs : gmap str node) :
  under d p = false -> rmtree d fs !! p = fs !! p.
Proof.
  intros Hu. unfold rmtree. destruct (fs !! p) as [x|] eqn:Hp.
  - by apply map_lookup_filter_Some.
  - apply map_lookup_filter_None. by left.
Qed.

Lemma truthy_nonempty {A} (l : list A) : l <> [] -> truthy l = true.
Proof. by destruct l. Qed.

Lemma str_mul_of_nat (n : nat) (s : str) : str_mul (Z.of_nat n) s = concat (replicate n s).
Proof. unfold str_mul. by rewrite Nat2Z.id. Qed.

(** ** Running a call up to the interpreter *)

Lemma open_x_write_events (P : platform) (path s : str) (fs : gmap str node) :
  (open_x_write P path s fs).1.1 = [].
Proof. unfold open_x_write. by repeat case_match. Qed.

(** A file that was written is new, and holds the encoded text. *)
Lemma open_x_write_Return (P : platform) (path s : str) (fs : gmap str node) ev fs1 :
  open_x_write P path s fs = (ev, fs1, Return tt) ->
  exists content,
    utf8_encode s = Some content /\ fs !! path = None /\ fs1 = <[path := File content]> fs.
Proof.
  unfold open_x_write. intros H. repeat case_match; simplify_eq. eauto.
Qed.

(** What the platform refuses is not created. *)
Lemma open_x_write_refused (P : platform) (path s : str) (fs : gmap str node) e :
  fsencodable path = true -> 0 ∉ path -> refuses P path fs = Some e ->
  open_x_write P path s fs = ([], fs, Raise e).
Proof.
  intros Henc Hnul Hre. unfold open_x_write.
  by rewrite Henc, (bool_decide_eq_false_2 _ Hnul), Hre.
Qed.

(** The same file written on a platform that refuses the same. *)
Lemma open_x_write_ext (P P' : platform) (path s : str) (fs : gmap str node) :
  refuses P' = refuses P -> open_x_write P' path s fs = open_x_write P path s fs.
Proof. intros E. unfold open_x_write. by rewrite E. Qed.

Lemma attempt_inv P st self fs fs1 fs2 process :
  compile_attempt P st self fs = Some (fs1, fs2, process) ->
  open_x_write P (join (mkdtemp P fs) (base_filename self ++ py ".tex")) (source self)
    (<[mkdtemp P fs := Dir]> fs) = ([], fs1, Return tt)
  /\ shell P (latex_command st (mkdtemp P fs)
                (join (mkdtemp P fs) (base_filename self ++ py ".tex"))) fs1
     = (fs2, process).
Proof.
  intros H. unfold compile_attempt, tex_file, workspace in H.
  pose proof (open_x_write_events P (join (mkdtemp P fs) (base_filename self ++ py ".tex"))
                (source self) (<[mkdtemp P fs:=Dir]> fs)) as Hev.
  destruct (open_x_write _ _ _) as [[ev1 fs1'] [[]|e]]; [|done].
  destruct (shell _ _ _) as [fs2' p'] eqn:Hs. cbn in Hev. by simplify_eq.
Qed.

Ltac names :=
  unfold ended, tex_file, pdf_file, log_file, pdf_name, latex_command, workspace in *.

Ltac mred :=
  cbn [raise ret get_fs app fst snd is_FileNotFoundError truthy negb].

(** Runs [_process_tex] up to the [try] block, given that the attempt
    [H] reached the interpreter. *)
Ltac attempt H :=
  let Hw := fresh "Hw" in
  let Hs := fresh "Hs" in
  destruct (attempt_inv _ _ _ _ _ _ _ H) as [Hw Hs];
  names;
  unfold _process_tex, with_TemporaryDirectory, run, try_except, call, mbind, M_bind, bind;
  cbn [callable negb]; rewrite Hw, Hs.

Ltac exit_code Hrc :=
  first [ rewrite Hrc; cbn [Z.eqb Pos.eqb]
        | rewrite (proj2 (Z.eqb_neq _ _) Hrc) ].

(** ** The interpreter exits with code 1 *)

Section ExitOne.
Context (P : platform) (st : Settings) (self : TexBuildCore).
Context {R : Type} (cb : str -> str -> M R).

(** C1, as amended.  When the interpreter exits with code 1 and has
    left [texput.log] in the work space as a file of valid utf-8, the
    call raises [TexError] with the text of that file (read in text
    mode, so with its line ends as LF) and the source it was given;
    nothing but the interpreter was run and the work space is gone. *)
Theorem exit_1_raises_TexError fs fs1 fs2 process content text :
  compile_attempt P st self fs = Some (fs1, fs2, process) ->
  returncode process = 1%Z ->
  fs2 !! log_file P fs = Some (File content) ->
  utf8_decode content = Some text ->
  _process_tex P st self (Callable cb) fs
  = ([EvMkdtemp (workspace P fs);
      EvRun (latex_command st (workspace P fs) (tex_file P self fs)) fs1;
      EvRmtree (workspace P fs)],
     rmtree (workspace P fs) fs2,
     Raise (TexError (universal_newlines text) (source self))).
Proof.
  intros H Hrc Hlog Hdec. attempt H. exit_code Hrc.
  unfold open_read. rewrite Hlog, Hdec. mred. reflexivity.
Qed.
End ExitOne.

(** C1 at work: [lualatex] fails on [texput.tex] and leaves its log. *)
Lemma exit_1_raises_TexError_witness :
  let files := [(Scenario.at_tmp "texput.log", File [Byte.x21; Byte.x0a])] in
  let P := Scenario.machine files 1 [] in
  let cb := _get_pdf_worker Scenario.texput in
  compile_attempt P Scenario.unset Scenario.texput Scenario.disk
  = Some (Scenario.written Scenario.texput, Scenario.left files Scenario.texput,
          Scenario.answer 1 [])
  /\ (_process_tex P Scenario.unset Scenario.texput (Callable cb) Scenario.disk).2
     = Raise (TexError [33; 10] (source Scenario.texput)).
Proof.
  intros files P cb. split; [reflexivity|].
  refine (f_equal snd
            (exit_1_raises_TexError P Scenario.unset Scenario.texput cb Scenario.disk
               (Scenario.written Scenario.texput) (Scenario.left files Scenario.texput)
               (Scenario.answer 1 []) [Byte.x21; Byte.x0a] [33; 10] _ _ _ _));
    reflexivity.
Defined.

(** C1 as it was stated fails: the interpreter exits with code 1
    without having written a log; what the call raises is the
    [FileNotFoundError] of the missing [texput.log], not a [TexError]. *)
Lemma exit_1_without_texput_log :
  let P := Scenario.machine [] 1 [] in
  let cb := _get_pdf_worker Scenario.texput in
  compile_attempt P Scenario.unset Scenario.texput Scenario.disk
  = Some (Scenario.written Scenario.texput, Scenario.left [] Scenario.texput,
          Scenario.answer 1 [])
  /\ returncode (Scenario.answer 1 []) = 1%Z
  /\ (_process_tex P Scenario.unset Scenario.texput (Callable cb) Scenario.disk).2
     = Raise (FileNotFoundError (Errno2 (Scenario.at_tmp "texput.log"))).
Proof. repeat split; reflexivity. Qed.

(** ** The interpreter exits with another code *)

Section OtherExit.
Context (P : platform) (st : Settings) (self : TexBuildCore).
Context {R : Type} (cb : str -> str -> M R).

(** With an exit code other than 1 the call does exactly what it does
    when the interpreter exits with 0. *)
Lemma exit_code_ignored fs fs1 fs2 process :
  compile_attempt P st self fs = Some (fs1, fs2, process) ->
  returncode process <> 1%Z ->
  _process_tex P st self (Callable cb) fs
  = _process_tex (answering 0 P) st self (Callable cb) fs.
Proof.
  intros H Hrc.
  assert (compile_attempt (answering 0 P) st self fs
          = Some (fs1, fs2, {| returncode := 0; stdout := stdout process;
                               stderr := stderr process |})) as H0.
  { unfold compile_attempt in *.
    change (workspace (answering 0 P) fs) with (workspace P fs).
    change (tex_file (answering 0 P) self fs) with (tex_file P self fs).
    rewrite (open_x_write_ext P (answering 0 P)) by done. cbn [answering shell].
    destruct (open_x_write _ _ _ _) as [[? ?] [[]|?]]; [|done].
    destruct (shell P _ _) as [? ?]. by simplify_eq. }
  attempt H. exit_code Hrc. symmetry. attempt H0. reflexivity.
Qed.

Lemma missing_pdf fs fs1 fs2 process :
  compile_attempt P st self fs = Some (fs1, fs2, process) ->
  returncode process <> 1%Z ->
  isfile fs2 (pdf_file P self fs) = false ->
  _process_tex P st self (Callable cb) fs
  = match stderr process with
    | [] => ended P st self fs fs1 [] fs2
              (Raise (FileNotFoundError
                        (Message (py "File " ++ pdf_file P self fs
                                    ++ py " not found or is not a file!"))))
    | _ :: _ => ended P st self fs fs1 [] fs2
                  (match utf8_decode (stderr process) with
                   | Some msg => Raise (Exception_ msg)
                   | None => Raise UnicodeDecodeError
                   end)
    end.
Proof.
  intros H Hrc Hpdf. unfold ended. attempt H. exit_code Hrc. mred. rewrite Hpdf. mred.
  destruct (stderr process) as [|b err]; mred; [reflexivity|].
  unfold decode. destruct (utf8_decode (b :: err)); mred; reflexivity.
Qed.

Lemma call_back_entered fs fs1 fs2 process ev fs3 r :
  compile_attempt P st self fs = Some (fs1, fs2, process) ->
  returncode process <> 1%Z ->
  isfile fs2 (pdf_file P self fs) = true ->
  cb (workspace P fs) (pdf_name self) fs2 = (ev, fs3, r) ->
  _process_tex P st self (Callable cb) fs
  = ended P st self fs fs1 (EvCall (workspace P fs) (pdf_name self) fs2 :: ev) fs3
      match r with
      | Raise (FileNotFoundError a) =>
          match stderr process with
          | [] => r
          | _ :: _ =>
              match utf8_decode (stderr process) with
              | Some msg => Raise (Exception_ msg)
              | None => Raise UnicodeDecodeError
              end
          end
      | _ => r
      end.
Proof.
  intros H Hrc Hpdf Hcb. unfold ended. attempt H. exit_code Hrc. mred. rewrite Hpdf. mred.
  rewrite Hcb. destruct r as [v|e]; mred; [reflexivity|].
  destruct e; mred; try reflexivity.
  destruct (stderr process) as [|b err]; mred; [by rewrite app_nil_r|].
  unfold decode. destruct (utf8_decode (b :: err)); mred; by rewrite app_nil_r.
Qed.

Lemma missing_log fs fs1 fs2 process :
  compile_attempt P st self fs = Some (fs1, fs2, process) ->
  returncode process = 1%Z ->
  fs2 !! log_file P fs = None ->
  _process_tex P st self (Callable cb) fs
  = ended P st self fs fs1 [] fs2
      match stderr process with
      | [] => Raise (FileNotFoundError (Errno2 (log_file P fs)))
      | _ :: _ =>
          match utf8_decode (stderr process) with
          | Some msg => Raise (Exception_ msg)
          | None => Raise UnicodeDecodeError
          end
      end.
Proof.
  intros H Hrc Hlog. unfold ended. attempt H. exit_code Hrc.
  unfold open_read. rewrite Hlog. mred.
  destruct (stderr process) as [|b err]; mred; [reflexivity|].
  unfold decode. destruct (utf8_decode (b :: err)); mred; reflexivity.
Qed.
End OtherExit.

(** ** What the call makes of the interpreter's answer *)

Section Outcome.
Context (P : platform) (st : Settings) (self : TexBuildCore).
Context {R : Type} (cb : str -> str -> M R).

(** C2.  When the interpreter exits with a code other than 1, be it 0
    or 2 or any other, only the check for the pdf file decides: if
    [<work space>/<base_filename>.pdf] is a regular file, the call back
    is entered with the work space and the file name, and what it
    returns is returned; if it is not, the call raises.  The exit code
    plays no further part: the call does just what it does for the same
    answer with exit code 0. *)
Theorem exit_code_other_than_1 fs fs1 fs2 process :
  compile_attempt P st self fs = Some (fs1, fs2, process) ->
  returncode process <> 1%Z ->
  (isfile fs2 (pdf_file P self fs) = true ->
   forall ev fs3 v,
     cb (workspace P fs) (pdf_name self) fs2 = (ev, fs3, Return v) ->
     _process_tex P st self (Callable cb) fs
     = ended P st self fs fs1 (EvCall (workspace P fs) (pdf_name self) fs2 :: ev) fs3
         (Return v))
  /\ (isfile fs2 (pdf_file P self fs) = false ->
      exists e, _process_tex P st self (Callable cb) fs
                = ended P st self fs fs1 [] fs2 (Raise e))
  /\ _process_tex P st self (Callable cb) fs
     = _process_tex (answering 0 P) st self (Callable cb) fs.
Proof.
  intros H Hrc. split; [|split].
  - intros Hpdf ev fs3 v Hcb.
    by rewrite (call_back_entered P st self cb fs fs1 fs2 process ev fs3 _ H Hrc Hpdf Hcb).
  - intros Hpdf. rewrite (missing_pdf P st self cb fs fs1 fs2 process H Hrc Hpdf).
    destruct (stderr process); [eauto|]. destruct (utf8_decode _); eauto.
  - by apply exit_code_ignored with fs1 fs2 process.
Qed.

(** C3, as amended.  When the interpreter exits with a code other
    than 1 and [<work space>/<base_filename>.pdf] is not a regular
    file, the call raises: an [Exception] whose message is the decoded
    error output of the interpreter if there is any and it is valid
    utf-8, and the [FileNotFoundError] that names the missing file if
    there is none. *)
Theorem missing_pdf_raises fs fs1 fs2 process :
  compile_attempt P st self fs = Some (fs1, fs2, process) ->
  returncode process <> 1%Z ->
  isfile fs2 (pdf_file P self fs) = false ->
  (forall msg,
     stderr process <> [] ->
     utf8_decode (stderr process) = Some msg ->
     _process_tex P st self (Callable cb) fs
     = ended P st self fs fs1 [] fs2 (Raise (Exception_ msg)))
  /\ (stderr process = [] ->
      _process_tex P st self (Callable cb) fs
      = ended P st self fs fs1 [] fs2
          (Raise (FileNotFoundError
                    (Message (py "File " ++ pdf_file P self fs
                                ++ py " not found or is not a file!"))))).
Proof.
  intros H Hrc Hpdf.
  rewrite (missing_pdf P st self cb fs fs1 fs2 process H Hrc Hpdf). split.
  - intros msg Hne Hdec. rewrite Hdec. by destruct (stderr process).
  - by intros ->.
Qed.

(** C8, as amended.  After a compile that succeeded (the exit code is
    not 1 and the pdf file is there) the call back is entered with the
    work space and [<base_filename>.pdf]; its outcome is the outcome of
    the call, value or exception, unless it is a [FileNotFoundError]
    raised while the interpreter had written to its error output.  The
    work space is removed after the call back is done. *)
Theorem call_back_outcome fs fs1 fs2 process ev fs3 r :
  compile_attempt P st self fs = Some (fs1, fs2, process) ->
  returncode process <> 1%Z ->
  isfile fs2 (pdf_file P self fs) = true ->
  cb (workspace P fs) (pdf_name self) fs2 = (ev, fs3, r) ->
  (forall a, r = Raise (FileNotFoundError a) -> stderr process = []) ->
  _process_tex P st self (Callable cb) fs
  = ended P st self fs fs1 (EvCall (workspace P fs) (pdf_name self) fs2 :: ev) fs3 r
  /\ forall p, under (workspace P fs) p = true ->
               (_process_tex P st self (Callable cb) fs).1.2 !! p = None.
Proof.
  intros H Hrc Hpdf Hcb Hfnf.
  rewrite (call_back_entered P st self cb fs fs1 fs2 process ev fs3 r H Hrc Hpdf Hcb).
  split.
  - destruct r as [v|[]]; try reflexivity. by rewrite (Hfnf args eq_refl).
  - intros p Hp. by apply rmtree_under.
Qed.

(** C10, as amended.  A [FileNotFoundError] raised after the
    interpreter has run gives way to an [Exception] that carries just
    the decoded error output, whenever there is error output and it is
    valid utf-8: be it that the exit code is 1 and there is no
    [texput.log], that the pdf file is missing, or that the call back
    raised it.  With exit code 1 and no [texput.log] the call never
    raises [TexError]. *)
Theorem FileNotFoundError_gives_way fs fs1 fs2 process :
  compile_attempt P st self fs = Some (fs1, fs2, process) ->
  (forall msg,
     stderr process <> [] ->
     utf8_decode (stderr process) = Some msg ->
     (returncode process = 1%Z ->
      fs2 !! log_file P fs = None ->
      _process_tex P st self (Callable cb) fs
      = ended P st self fs fs1 [] fs2 (Raise (Exception_ msg)))
     /\ (returncode process <> 1%Z ->
         isfile fs2 (pdf_file P self fs) = false ->
         _process_tex P st self (Callable cb) fs
         = ended P st self fs fs1 [] fs2 (Raise (Exception_ msg)))
     /\ (returncode process <> 1%Z ->
         isfile fs2 (pdf_file P self fs) = true ->
         forall ev fs3 a,
           cb (workspace P fs) (pdf_name self) fs2 = (ev, fs3, Raise (FileNotFoundError a)) ->
           _process_tex P st self (Callable cb) fs
           = ended P st self fs fs1 (EvCall (workspace P fs) (pdf_name self) fs2 :: ev) fs3
               (Raise (Exception_ msg))))
  /\ (returncode process = 1%Z ->
      fs2 !! log_file P fs = None ->
      forall log src,
        (_process_tex P st self (Callable cb) fs).2 <> Raise (TexError log src)).
Proof.
  intros H. split.
  - intros msg Hne Hdec. split; [|split].
    + intros Hrc Hlog.
      rewrite (missing_log P st self cb fs fs1 fs2 process H Hrc Hlog), Hdec.
      by destruct (stderr process).
    + intros Hrc Hpdf.
      rewrite (missing_pdf P st self cb fs fs1 fs2 process H Hrc Hpdf), Hdec.
      by destruct (stderr process).
    + intros Hrc Hpdf ev fs3 a Hcb.
      rewrite (call_back_entered P st self cb fs fs1 fs2 process ev fs3 _ H Hrc Hpdf Hcb).
      rewrite Hdec. by destruct (stderr process).
  - intros Hrc Hlog log src.
    rewrite (missing_log P st self cb fs fs1 fs2 process H Hrc Hlog). cbn.
    destruct (stderr process); [done|]. by destruct (utf8_decode _).
Qed.

(** C5.  Whatever way a call takes, the work space and all below it are
    gone when it ends: the directory is made first and its removal is
    the last thing that happens.  When the call back is entered, the
    pdf file it is pointed to is still there, in the work space, and the
    removal works on what the call back has left. *)
Theorem workspace_removed_at_the_end fs :
  (forall p, under (workspace P fs) p = true ->
             (_process_tex P st self (Callable cb) fs).1.2 !! p = None)
  /\ (exists ev,
        (_process_tex P st self (Callable cb) fs).1.1
        = EvMkdtemp (workspace P fs) :: ev ++ [EvRmtree (workspace P fs)])
  /\ (forall fs1 fs2 process ev fs3 r,
        compile_attempt P st self fs = Some (fs1, fs2, process) ->
        returncode process <> 1%Z ->
        isfile fs2 (pdf_file P self fs) = true ->
        cb (workspace P fs) (pdf_name self) fs2 = (ev, fs3, r) ->
        (_process_tex P st self (Callable cb) fs).1.1
        = EvMkdtemp (workspace P fs)
            :: EvRun (latex_command st (workspace P fs) (tex_file P self fs)) fs1
            :: EvCall (workspace P fs) (pdf_name self) fs2
            :: ev ++ [EvRmtree (workspace P fs)]
        /\ (_process_tex P st self (Callable cb) fs).1.2 = rmtree (workspace P fs) fs3
        /\ isfile fs2 (join (workspace P fs) (pdf_name self)) = true
        /\ (is_filename (base_filename self) ->
            under (workspace P fs) (join (workspace P fs) (pdf_name self)) = true)).
Proof.
  split; [|split].
  - intros p Hp. unfold _process_tex, with_TemporaryDirectory, workspace in *.
    cbn [callable negb].
    match goal with |- context [match ?body with _ => _ end] =>
      destruct body as [[ev fs'] r] end.
    by apply rmtree_under.
  - unfold _process_tex, with_TemporaryDirectory, workspace. cbn [callable negb].
    match goal with |- context [match ?body with _ => _ end] =>
      destruct body as [[ev fs'] r] end.
    by exists ev.
  - intros fs1 fs2 process ev fs3 r H Hrc Hpdf Hcb.
    rewrite (call_back_entered P st self cb fs fs1 fs2 process ev fs3 r H Hrc Hpdf Hcb).
    repeat split; [done|].
    intros Hname. apply under_join, filename_not_absolute.
    by apply (is_filename_ext _ ".pdf").
Qed.
End Outcome.

(** *** The outcomes on a machine *)

Ltac closed := first [reflexivity | vm_compute; discriminate].

(** C2 at work: the interpreter exits with code 2 and the pdf file is
    there; its bytes are returned. *)
Lemma exit_code_other_than_1_witness :
  let P := Scenario.machine Scenario.texput_pdf 2 [] in
  let cb := _get_pdf_worker Scenario.texput in
  compile_attempt P Scenario.unset Scenario.texput Scenario.disk
  = Some (Scenario.written Scenario.texput,
          Scenario.left Scenario.texput_pdf Scenario.texput, Scenario.answer 2 [])
  /\ returncode (Scenario.answer 2 []) <> 1%Z
  /\ (_process_tex P Scenario.unset Scenario.texput (Callable cb) Scenario.disk).2
     = Return Scenario.pdf_bytes.
Proof.
  intros P cb. split; [closed|]. split; [closed|].
  refine (f_equal snd
            (proj1 (exit_code_other_than_1 P Scenario.unset Scenario.texput cb Scenario.disk
                      (Scenario.written Scenario.texput)
                      (Scenario.left Scenario.texput_pdf Scenario.texput)
                      (Scenario.answer 2 []) _ _)
               _ [] (Scenario.left Scenario.texput_pdf Scenario.texput)
               Scenario.pdf_bytes _));
    closed.
Defined.

(** C3 at work: exit code 0, no pdf file, and a complaint on the error
    output. *)
Lemma missing_pdf_raises_witness :
  let P := Scenario.machine [] 0 [Byte.x21] in
  let cb := _get_pdf_worker Scenario.texput in
  compile_attempt P Scenario.unset Scenario.texput Scenario.disk
  = Some (Scenario.written Scenario.texput, Scenario.left [] Scenario.texput,
          Scenario.answer 0 [Byte.x21])
  /\ returncode (Scenario.answer 0 [Byte.x21]) <> 1%Z
  /\ isfile (Scenario.left [] Scenario.texput) (pdf_file P Scenario.texput Scenario.disk) = false
  /\ (_process_tex P Scenario.unset Scenario.texput (Callable cb) Scenario.disk).2
     = Raise (Exception_ (py "!")).
Proof.
  intros P cb. split; [closed|]. split; [closed|]. split; [closed|].
  refine (f_equal snd
            (proj1 (missing_pdf_raises P Scenario.unset Scenario.texput cb Scenario.disk
                      (Scenario.written Scenario.texput) (Scenario.left [] Scenario.texput)
                      (Scenario.answer 0 [Byte.x21]) _ _ _)
               (py "!") _ _));
    closed.
Defined.

(** C3 as it was stated fails: exit code 0, no pdf file, and an error
    output in latin-1.  There is error output, and yet the call raises
    no [Exception] with its text: the decoding fails, and the call
    raises [UnicodeDecodeError]. *)
Lemma missing_pdf_stderr_not_utf8 :
  let P := Scenario.machine [] 0 [Byte.xe9] in
  let cb := _get_pdf_worker Scenario.texput in
  compile_attempt P Scenario.unset Scenario.texput Scenario.disk
  = Some (Scenario.written Scenario.texput, Scenario.left [] Scenario.texput,
          Scenario.answer 0 [Byte.xe9])
  /\ returncode (Scenario.answer 0 [Byte.xe9]) <> 1%Z
  /\ isfile (Scenario.left [] Scenario.texput) (pdf_file P Scenario.texput Scenario.disk) = false
  /\ stderr (Scenario.answer 0 [Byte.xe9]) <> []
  /\ (_process_tex P Scenario.unset Scenario.texput (Callable cb) Scenario.disk).2
     = Raise UnicodeDecodeError.
Proof.
  intros P cb. split; [closed|]. split; [closed|]. split; [closed|]. split; closed.
Qed.

(** C8 at work: the call back fails with an error of its own, which is
    what the call raises. *)
Lemma call_back_outcome_witness :
  let P := Scenario.machine Scenario.texput_pdf 0 [Byte.x21] in
  let fs2 := Scenario.left Scenario.texput_pdf Scenario.texput in
  compile_attempt P Scenario.unset Scenario.texput Scenario.disk
  = Some (Scenario.written Scenario.texput, fs2, Scenario.answer 0 [Byte.x21])
  /\ returncode (Scenario.answer 0 [Byte.x21]) <> 1%Z
  /\ isfile fs2 (pdf_file P Scenario.texput Scenario.disk) = true
  /\ (_process_tex P Scenario.unset Scenario.texput (Callable Scenario.jammed) Scenario.disk).2
     = Raise (PrintError (py "paper jam")).
Proof.
  intros P fs2. split; [closed|]. split; [closed|]. split; [closed|].
  refine (f_equal snd
            (proj1 (call_back_outcome P Scenario.unset Scenario.texput Scenario.jammed
                      Scenario.disk (Scenario.written Scenario.texput) fs2
                      (Scenario.answer 0 [Byte.x21]) [] fs2
                      (Raise (PrintError (py "paper jam"))) _ _ _ _ _)));
    first [closed | intros a; discriminate].
Defined.

(** C8 as it was stated fails: the compile succeeded, with a warning on
    the error output; the call back raises [FileNotFoundError], and the
    call raises an [Exception] with the warning instead. *)
Lemma call_back_FileNotFoundError_lost :
  let P := Scenario.machine Scenario.texput_pdf 0 [Byte.x21] in
  let fs2 := Scenario.left Scenario.texput_pdf Scenario.texput in
  compile_attempt P Scenario.unset Scenario.texput Scenario.disk
  = Some (Scenario.written Scenario.texput, fs2, Scenario.answer 0 [Byte.x21])
  /\ isfile fs2 (pdf_file P Scenario.texput Scenario.disk) = true
  /\ (Scenario.vanished (workspace P Scenario.disk) (pdf_name Scenario.texput) fs2).2
     = Raise (FileNotFoundError (Errno2 (Scenario.at_tmp "texput.pdf")))
  /\ (_process_tex P Scenario.unset Scenario.texput (Callable Scenario.vanished) Scenario.disk).2
     = Raise (Exception_ (py "!")).
Proof. intros P fs2. repeat split; closed. Qed.

(** C10 at work: exit code 1, no log, and a complaint on the error
    output. *)
Lemma FileNotFoundError_gives_way_witness :
  let P := Scenario.machine [] 1 [Byte.x21] in
  let cb := _get_pdf_worker Scenario.texput in
  compile_attempt P Scenario.unset Scenario.texput Scenario.disk
  = Some (Scenario.written Scenario.texput, Scenario.left [] Scenario.texput,
          Scenario.answer 1 [Byte.x21])
  /\ (_process_tex P Scenario.unset Scenario.texput (Callable cb) Scenario.disk).2
     = Raise (Exception_ (py "!")).
Proof.
  intros P cb. split; [closed|].
  refine (f_equal snd
            (proj1 (proj1 (FileNotFoundError_gives_way P Scenario.unset Scenario.texput cb
                             Scenario.disk (Scenario.written Scenario.texput)
                             (Scenario.left [] Scenario.texput)
                             (Scenario.answer 1 [Byte.x21]) _)
                      (py "!") _ _) _ _));
    closed.
Defined.

(** C10 as it was stated fails: exit code 1, no log, and an error
    output in latin-1.  The [FileNotFoundError] of the missing log is
    caught and there is error output, and yet no [Exception] carries
    it: the call raises [UnicodeDecodeError]. *)
Lemma missing_log_stderr_not_utf8 :
  let P := Scenario.machine [] 1 [Byte.xe9] in
  let cb := _get_pdf_worker Scenario.texput in
  compile_attempt P Scenario.unset Scenario.texput Scenario.disk
  = Some (Scenario.written Scenario.texput, Scenario.left [] Scenario.texput,
          Scenario.answer 1 [Byte.xe9])
  /\ returncode (Scenario.answer 1 [Byte.xe9]) = 1%Z
  /\ Scenario.left [] Scenario.texput !! log_file P Scenario.disk = None
  /\ stderr (Scenario.answer 1 [Byte.xe9]) <> []
  /\ (_process_tex P Scenario.unset Scenario.texput (Callable cb) Scenario.disk).2
     = Raise UnicodeDecodeError.
Proof.
  intros P cb. split; [closed|]. split; [closed|]. split; [closed|]. split; closed.
Qed.

(** C5 at work: the call back reads the pdf file in the work space, and
    the work space is removed after that. *)
Lemma workspace_removed_at_the_end_witness :
  let P := Scenario.machine Scenario.texput_pdf 0 [] in
  let cb := _get_pdf_worker Scenario.texput in
  let fs2 := Scenario.left Scenario.texput_pdf Scenario.texput in
  compile_attempt P Scenario.unset Scenario.texput Scenario.disk
  = Some (Scenario.written Scenario.texput, fs2, Scenario.answer 0 [])
  /\ returncode (Scenario.answer 0 []) <> 1%Z
  /\ isfile fs2 (pdf_file P Scenario.texput Scenario.disk) = true
  /\ (_process_tex P Scenario.unset Scenario.texput (Callable cb) Scenario.disk).1.2
     = rmtree (workspace P Scenario.disk) fs2.
Proof.
  intros P cb fs2. split; [closed|]. split; [closed|]. split; [closed|].
  refine (proj1 (proj2
            (proj2 (proj2 (workspace_removed_at_the_end P Scenario.unset Scenario.texput cb
                             Scenario.disk))
               (Scenario.written Scenario.texput) fs2 (Scenario.answer 0 []) [] fs2
               (Return Scenario.pdf_bytes) _ _ _ _)));
    closed.
Defined.

(** ** The source file and the command line *)

Section Command.
Context (P : platform) (st : Settings) (self : TexBuildCore).
Context {R : Type} (cb : str -> str -> M R).

(** A call that gets as far as the interpreter runs one command, and
    after it nothing but, at most, the call back. *)
Lemma attempt_events fs fs1 fs2 process :
  compile_attempt P st self fs = Some (fs1, fs2, process) ->
  exists ev,
    (_process_tex P st self (Callable cb) fs).1.1
    = EvMkdtemp (workspace P fs)
        :: EvRun (latex_command st (workspace P fs) (tex_file P self fs)) fs1
        :: ev ++ [EvRmtree (workspace P fs)]
    /\ (ev = []
        \/ ev = EvCall (workspace P fs) (pdf_name self) fs2
                  :: (cb (workspace P fs) (pdf_name self) fs2).1.1).
Proof.
  intros H. destruct (Z.eq_dec (returncode process) 1) as [Hrc|Hrc].
  - destruct (fs2 !! log_file P fs) as [[content|]|] eqn:Hlog.
    + attempt H. exit_code Hrc. unfold open_read. rewrite Hlog.
      destruct (utf8_decode content); mred; exists []; eauto.
    + attempt H. exit_code Hrc. unfold open_read. rewrite Hlog. mred.
      exists []; eauto.
    + rewrite (missing_log P st self cb fs fs1 fs2 process H Hrc Hlog).
      exists []; eauto.
  - destruct (isfile fs2 (pdf_file P self fs)) eqn:Hpdf.
    + destruct (cb (workspace P fs) (pdf_name self) fs2) as [[ev fs3] r] eqn:Hcb.
      rewrite (call_back_entered P st self cb fs fs1 fs2 process ev fs3 r H Hrc Hpdf Hcb).
      eexists; eauto.
    + rewrite (missing_pdf P st self cb fs fs1 fs2 process H Hrc Hpdf).
      exists []. destruct (stderr process); eauto.
Qed.

(** The command of the source is the command line of the interface
    description. *)
Lemma latex_command_invocation (tempdir : str) (n : nat) :
  is_filename (base_filename self) ->
  getattr (LATEX_RUN_COUNT st) 1%Z = Z.of_nat n ->
  latex_command st tempdir (join tempdir (base_filename self ++ py ".tex"))
  = compiler_invocation (getattr (LATEX_INTERPRETER st) (py "lualatex"))
      (getattr (LATEX_INTERPRETER_OPTIONS st) []) n tempdir (base_filename self).
Proof.
  intros Hname Hn. unfold latex_command, compiler_invocation, DEFAULT_RUN_COUNT.
  rewrite basename_join by (by apply (is_filename_ext _ ".tex")).
  by rewrite Hn, str_mul_of_nat.
Qed.

(** C4, as amended.  With a base name that holds no [/], the call
    runs one shell command: [cd "<work space>"], a
    blank, and then, as many times as the run count says, the text
    [ && <interpreter> -interaction=batchmode <options> <base_filename>.tex].
    Interpreter, options and run count are those of the settings the
    call is made with, or [lualatex], the empty string and 1 where the
    settings leave them unset.  Nothing else is run, but for what the
    call back does. *)
Theorem compiler_command_line fs fs1 fs2 process (n : nat) :
  compile_attempt P st self fs = Some (fs1, fs2, process) ->
  is_filename (base_filename self) ->
  getattr (LATEX_RUN_COUNT st) 1%Z = Z.of_nat n ->
  exists ev,
    (_process_tex P st self (Callable cb) fs).1.1
    = EvMkdtemp (workspace P fs)
        :: EvRun (compiler_invocation
                    (getattr (LATEX_INTERPRETER st) (py "lualatex"))
                    (getattr (LATEX_INTERPRETER_OPTIONS st) [])
                    n (workspace P fs) (base_filename self)) fs1
        :: ev ++ [EvRmtree (workspace P fs)]
    /\ (ev = []
        \/ ev = EvCall (workspace P fs) (pdf_name self) fs2
                  :: (cb (workspace P fs) (pdf_name self) fs2).1.1).
Proof.
  intros H Hname Hn. destruct (attempt_events fs fs1 fs2 process H) as (ev & Hev & Hcall).
  exists ev. split; [|done]. rewrite Hev. unfold tex_file.
  by rewrite (latex_command_invocation (workspace P fs) n Hname Hn).
Qed.
End Command.

(** C4 at work: two runs of [pdflatex] on [texput.tex]. *)
Lemma compiler_command_line_witness :
  let P := Scenario.machine Scenario.texput_pdf 0 [] in
  let cb := _get_pdf_worker Scenario.texput in
  let fs2 := Scenario.left Scenario.texput_pdf Scenario.texput in
  compile_attempt P Scenario.twice Scenario.texput Scenario.disk
  = Some (Scenario.written Scenario.texput, fs2, Scenario.answer 0 [])
  /\ is_filename (base_filename Scenario.texput)
  /\ getattr (LATEX_RUN_COUNT Scenario.twice) 1%Z = Z.of_nat 2
  /\ exists ev,
       (_process_tex P Scenario.twice Scenario.texput (Callable cb) Scenario.disk).1.1
       = EvMkdtemp Scenario.tmp
           :: EvRun (py "cd " ++ dquote :: Scenario.tmp ++ dquote
                       :: py "  && pdflatex -interaction=batchmode -shell-escape texput.tex"
                       ++ py " && pdflatex -interaction=batchmode -shell-escape texput.tex")
                (Scenario.written Scenario.texput)
           :: ev ++ [EvRmtree Scenario.tmp].
Proof.
  intros P cb fs2. split; [closed|]. split; [compute_done|]. split; [closed|].
  destruct (compiler_command_line P Scenario.twice Scenario.texput cb Scenario.disk
              (Scenario.written Scenario.texput) fs2 (Scenario.answer 0 []) 2)
    as (ev & Hev & _); [closed | compute_done | closed |].
  exists ev. exact Hev.
Defined.

(** C4 as it was stated fails: with the base name [/srv/out] the
    source is written to [/srv/out.tex], and the command run in the
    work space names [out.tex], not [/srv/out.tex]. *)
Lemma compiler_command_line_absolute_base :
  let P := Scenario.machine Scenario.texput_pdf 0 [] in
  let cb := _get_pdf_worker absolute in
  let content := default [] (utf8_encode (source absolute)) in
  let fs1 := <[py "/srv/out.tex" := File content]> (<[Scenario.tmp := Dir]> disk_srv) in
  let fs2 := list_to_map Scenario.texput_pdf ∪ fs1 in
  let cmd := py "cd " ++ dquote :: Scenario.tmp ++ dquote
               :: py "  && lualatex -interaction=batchmode  out.tex" in
  compile_attempt P Scenario.unset absolute disk_srv = Some (fs1, fs2, Scenario.answer 0 [])
  /\ (_process_tex P Scenario.unset absolute (Callable cb) disk_srv).1.1
     = [EvMkdtemp Scenario.tmp; EvRun cmd fs1; EvRmtree Scenario.tmp]
  /\ cmd <> compiler_invocation (py "lualatex") [] 1 Scenario.tmp (base_filename absolute).
Proof.
  intros P cb content fs1 fs2 cmd. split; [closed|]. split; closed.
Qed.

(** ** Before the interpreter runs *)


Section Written.
Context (P : platform) (st : Settings) (self : TexBuildCore).
Context {R : Type}.

End Written.



(** Paths of a file in a directory. *)

Lemma rstrip_sep_app (d : str) : endswith_sep d = false -> rstrip_sep (d ++ [sep]) = d.
Proof.
  induction d as [|c d IH]; [done|]. intros Hd. cbn [rstrip_sep app].
  destruct d as [|c' d].
  - cbn in *. by rewrite Hd.
  - rewrite IH; [done|]. exact Hd.
Qed.

Lemma not_all_sep (d l : str) :
  d <> [] -> endswith_sep d = false -> forallb (N.eqb sep) (d ++ l) = false.
Proof.
  intros Hne Hd. unfold endswith_sep in Hd.
  destruct (last d) as [c|] eqn:Hl.
  - apply last_Some in Hl as [d' ->].
    rewrite <- app_assoc, forallb_app. cbn [app forallb].
    rewrite (N.eqb_sym sep c), Hd. apply andb_false_r.
  - apply last_None in Hl. done.
Qed.

Lemma join_filename (d name : str) :
  d <> [] -> endswith_sep d = false -> is_filename name -> join d name = d ++ sep :: name.
Proof.
  intros Hne Hd Hn. unfold join. rewrite (filename_not_absolute name Hn), Hd.
  by rewrite bool_decide_eq_false_2.
Qed.

(** The directory of a file placed in a directory is that directory. *)
Lemma dirname_join (d name : str) :
  d <> [] -> endswith_sep d = false -> is_filename name -> dirname (join d name) = d.
Proof.
  intros Hne Hd Hn. rewrite join_filename by done. unfold dirname.
  rewrite rsplit_app_sep by done. cbn [fst].
  rewrite not_all_sep by done. by apply rstrip_sep_app.
Qed.

(** ** Printing *)

Lemma device_options_lookup (cmd : str) :
  PRINTING_DEVICE_OPTIONS !! cmd
  = if bool_decide (cmd = py "lp") then Some (py "-d {}")
    else if bool_decide (cmd = py "lpr") then Some (py "-P {}")
    else None.
Proof.
  unfold PRINTING_DEVICE_OPTIONS. rewrite lookup_insert, lookup_singleton.
  repeat case_decide; repeat case_bool_decide; congruence.
Qed.

Lemma format_lp (device : str) : format (py "-d {}") device = py "-d " ++ device.
Proof. change (format (py "-d {}") device) with (py "-d " ++ device ++ []). by rewrite app_nil_r. Qed.

Lemma format_lpr (device : str) : format (py "-P {}") device = py "-P " ++ device.
Proof. change (format (py "-P {}") device) with (py "-P " ++ device ++ []). by rewrite app_nil_r. Qed.

Section Print.
Context (P : platform) (st : Settings) (self : TexBuildCore).

(** The worker logs its notice, runs the print command, and then goes
    by the exit code and the error output. *)
Lemma print_worker_runs tempdir pdf_filename fs fs' process :
  shell P (print_invocation st self tempdir pdf_filename) fs = (fs', process) ->
  _print_pdf_worker_unix P st self tempdir pdf_filename fs
  = let cmd := print_invocation st self tempdir pdf_filename in
    let before := device_notice st ++ [EvRun cmd fs] in
    if negb (returncode process =? 0)%Z then
      match utf8_decode (stderr process) with
      | Some err => (before, fs', Raise (PrintError (error_message cmd err)))
      | None => (before, fs', Raise UnicodeDecodeError)
      end
    else
      match stderr process with
      | [] => (before, fs', Return tt)
      | _ :: _ =>
          match utf8_decode (stderr process) with
          | Some err => (before ++ [EvLog WARNING (stderr_warning cmd err)], fs', Return tt)
          | None => (before, fs', Raise UnicodeDecodeError)
          end
      end.
Proof.
  intros Hs. cbv zeta.
  unfold _print_pdf_worker_unix, print_invocation, device_command, device_notice,
    arguments, command in *.
  rewrite device_options_lookup.
  unfold run, mbind, M_bind, mret, M_ret, bind, logger_debug, logger_warning, emit, decode.
  assert (forall b err, (0 <? length (b :: err : bytes))%nat = true) as Hlen by done.
  destruct (LATEX_PRINTER st) as [device|];
    [destruct (bool_decide (_ = py "lp")) eqn:Hlp;
       [apply bool_decide_eq_true in Hlp; rewrite Hlp in *
       |destruct (bool_decide (_ = py "lpr")) eqn:Hlpr;
          [apply bool_decide_eq_true in Hlpr; rewrite Hlpr in *|]]|];
    cbn [ret app orb]; rewrite ?format_lp, ?format_lpr;
    match type of Hs with
    | shell P ?c' fs = _ =>
        match goal with |- context [shell P ?c fs] => change c with c' end
    end;
    rewrite Hs;
    destruct (returncode process =? 0)%Z; cbn [negb];
    (destruct (stderr process) as [|b err]; [|rewrite ?Hlen]);
    cbn [length Nat.ltb Nat.leb utf8_decode];
    try destruct (utf8_decode (b :: err));
    cbn [ret raise app]; reflexivity.
Qed.

(** C6.  With a printer in the settings, the command [lp] becomes
    [lp -d <quoted printer>] and the command [lpr] becomes
    [lpr -P <quoted printer>]; a command that is neither is left as it
    is and a warning is logged, after which the command is run all the
    same; without a printer nothing is added.  What is run is that
    command, the options of the settings, the extra option of the
    caller and the quoted path of the pdf file, with blanks between. *)
Theorem print_command_line tempdir pdf_filename fs :
  let rest :=
    py " " ++ getattr (LATEX_UNIX_PRINT_OPTIONS st) [] ++ py " "
      ++ _extra_printing_option self ++ py " " ++ quote (join tempdir pdf_filename) in
  let cmd := getattr (LATEX_UNIX_PRINT_COMMAND st) (py "lpr") in
  let events := (_print_pdf_worker_unix P st self tempdir pdf_filename fs).1.1 in
  (forall device,
     LATEX_PRINTER st = Some device -> cmd = py "lp" ->
     exists ev, events = EvRun (py "lp -d " ++ quote device ++ rest) fs :: ev)
  /\ (forall device,
        LATEX_PRINTER st = Some device -> cmd = py "lpr" ->
        exists ev, events = EvRun (py "lpr -P " ++ quote device ++ rest) fs :: ev)
  /\ (forall device,
        LATEX_PRINTER st = Some device -> cmd <> py "lp" -> cmd <> py "lpr" ->
        exists ev,
          events
          = EvLog WARNING
              (py "The unknown custom printing command '" ++ cmd
                 ++ py "' was defined and as well as a non default printer. Please edit 'PRINTING_DEVICE_OPTIONS' in the module according to your needs.")
              :: EvRun (cmd ++ rest) fs :: ev)
  /\ (LATEX_PRINTER st = None ->
      exists ev,
        events
        = EvLog DEBUG (py "No default printer set, using default.")
            :: EvRun (cmd ++ rest) fs :: ev).
Proof.
  intros rest cmd events. subst events.
  destruct (shell P (print_invocation st self tempdir pdf_filename) fs)
    as [fs' process] eqn:Hs.
  rewrite (print_worker_runs tempdir pdf_filename fs fs' process Hs). cbv zeta.
  unfold print_invocation, device_command, device_notice, unknown_command_warning,
    arguments, command.
  fold cmd. fold rest.
  repeat split.
  - intros device -> ->. cbn [bool_decide orb app].
    rewrite bool_decide_eq_true_2 by done. cbn [orb app].
    repeat case_match; eexists; cbn [fst app]; reflexivity.
  - intros device -> ->.
    rewrite (bool_decide_eq_false_2 (py "lpr" = py "lp")) by done.
    rewrite bool_decide_eq_true_2 by done. cbn [orb app].
    repeat case_match; eexists; cbn [fst app]; reflexivity.
  - intros device -> Hlp Hlpr.
    rewrite !bool_decide_eq_false_2 by done. cbn [orb app].
    repeat case_match; eexists; cbn [fst app]; reflexivity.
  - intros ->. repeat case_match; eexists; cbn [fst app]; reflexivity.
Qed.

(** C7, as amended.  Where the error output of the print command is
    valid utf-8: a print command that exits with a code other than 0
    makes the worker raise [PrintError], with the command that was run
    and the decoded error output in its message; with exit code 0 the
    worker returns, silently when nothing was written to the error
    output, and with a warning that holds the decoded error output
    otherwise. *)
Theorem print_exit_code tempdir pdf_filename fs fs' process :
  let cmd := print_invocation st self tempdir pdf_filename in
  shell P cmd fs = (fs', process) ->
  (returncode process <> 0%Z ->
   forall err,
     utf8_decode (stderr process) = Some err ->
     _print_pdf_worker_unix P st self tempdir pdf_filename fs
     = (device_notice st ++ [EvRun cmd fs], fs',
        Raise (PrintError (py "Printing with '" ++ cmd
                             ++ py "' resulted in an error. '" ++ err ++ py "'"))))
  /\ (returncode process = 0%Z ->
      stderr process = [] ->
      _print_pdf_worker_unix P st self tempdir pdf_filename fs
      = (device_notice st ++ [EvRun cmd fs], fs', Return tt))
  /\ (returncode process = 0%Z ->
      stderr process <> [] ->
      forall err,
        utf8_decode (stderr process) = Some err ->
        _print_pdf_worker_unix P st self tempdir pdf_filename fs
        = (device_notice st
             ++ [EvRun cmd fs;
                 EvLog WARNING
                   (py "Printing with '" ++ cmd
                      ++ py "' did not result in an error but still wrote something, to stderr. ''"
                      ++ err)],
           fs', Return tt)).
Proof.
  intros cmd Hs. rewrite (print_worker_runs tempdir pdf_filename fs fs' process Hs).
  cbv zeta. fold cmd. split; [|split].
  - intros Hrc err ->. by rewrite (proj2 (Z.eqb_neq _ _) Hrc).
  - by intros -> ->.
  - intros -> Hne err ->. destruct (stderr process); [done|].
    cbn [Z.eqb negb]. by rewrite <- app_assoc.
Qed.
End Print.

(** C6 at work: two copies sent to printer [hp 1] with [lp]. *)
Lemma print_command_line_witness :
  let P := Scenario.machine [] 0 [] in
  let fs := Scenario.left Scenario.texput_pdf Scenario.texput in
  LATEX_PRINTER Scenario.to_hp1 = Some (py "hp 1")
  /\ getattr (LATEX_UNIX_PRINT_COMMAND Scenario.to_hp1) (py "lpr") = py "lp"
  /\ exists ev,
       (_print_pdf_worker_unix P Scenario.to_hp1 Scenario.two_copies
          Scenario.tmp (py "texput.pdf") fs).1.1
       = EvRun (py "lp -d 'hp 1' -o media=a4 -n 2 /tmp/tmpk3q9x/texput.pdf") fs :: ev.
Proof.
  intros P fs. split; [closed|]. split; [closed|].
  destruct (proj1 (print_command_line P Scenario.to_hp1 Scenario.two_copies
                     Scenario.tmp (py "texput.pdf") fs)
              (py "hp 1") eq_refl eq_refl) as (ev & Hev).
  exists ev. exact Hev.
Defined.

(** C7 at work: [lp] exits with code 2 and a complaint. *)
Lemma print_exit_code_witness :
  let P := Scenario.machine [] 2 [Byte.x21] in
  let fs := Scenario.left Scenario.texput_pdf Scenario.texput in
  let cmd := print_invocation Scenario.to_hp1 Scenario.two_copies
               Scenario.tmp (py "texput.pdf") in
  shell P cmd fs = ((shell P cmd fs).1, Scenario.answer 2 [Byte.x21])
  /\ returncode (Scenario.answer 2 [Byte.x21]) <> 0%Z
  /\ utf8_decode (stderr (Scenario.answer 2 [Byte.x21])) = Some (py "!")
  /\ (_print_pdf_worker_unix P Scenario.to_hp1 Scenario.two_copies
        Scenario.tmp (py "texput.pdf") fs).2
     = Raise (PrintError
                (py "Printing with 'lp -d 'hp 1' -o media=a4 -n 2 /tmp/tmpk3q9x/texput.pdf' resulted in an error. '!'")).
Proof.
  intros P fs cmd. split; [closed|]. split; [closed|]. split; [closed|].
  refine (f_equal snd
            (proj1 (print_exit_code P Scenario.to_hp1 Scenario.two_copies
                      Scenario.tmp (py "texput.pdf") fs (shell P cmd fs).1
                      (Scenario.answer 2 [Byte.x21]) _)
               _ (py "!") _));
    closed.
Defined.

(** C7 as it was stated fails: [lp] exits with code 0 and has written
    a byte of latin-1 to its error output.  The exit code is 0, and the
    worker raises [UnicodeDecodeError]. *)
Lemma print_exit_0_stderr_not_utf8 :
  let P := Scenario.machine [] 0 [Byte.xe9] in
  let fs := Scenario.left Scenario.texput_pdf Scenario.texput in
  let cmd := print_invocation Scenario.to_hp1 Scenario.two_copies
               Scenario.tmp (py "texput.pdf") in
  shell P cmd fs = ((shell P cmd fs).1, Scenario.answer 0 [Byte.xe9])
  /\ returncode (Scenario.answer 0 [Byte.xe9]) = 0%Z
  /\ (_print_pdf_worker_unix P Scenario.to_hp1 Scenario.two_copies
        Scenario.tmp (py "texput.pdf") fs).2
     = Raise UnicodeDecodeError.
Proof.
  intros P fs cmd. split; [closed|]. split; closed.
Qed.

(** * Further properties of the module *)

(** ** More on the ways through [_process_tex] *)

Section Ways.
Context (P : platform) (st : Settings) (self : TexBuildCore).
Context {R : Type} (cb : str -> str -> M R).

Lemma log_present fs fs1 fs2 process content :
  compile_attempt P st self fs = Some (fs1, fs2, process) ->
  returncode process = 1%Z ->
  fs2 !! log_file P fs = Some (File content) ->
  _process_tex P st self (Callable cb) fs
  = ended P st self fs fs1 [] fs2
      match utf8_decode content with
      | Some text => Raise (TexError (universal_newlines text) (source self))
      | None => Raise UnicodeDecodeError
      end.
Proof.
  intros H Hrc Hlog. attempt H. exit_code Hrc. unfold open_read. rewrite Hlog.
  destruct (utf8_decode content); mred; reflexivity.
Qed.

Lemma log_is_directory fs fs1 fs2 process :
  compile_attempt P st self fs = Some (fs1, fs2, process) ->
  returncode process = 1%Z ->
  fs2 !! log_file P fs = Some Dir ->
  _process_tex P st self (Callable cb) fs
  = ended P st self fs fs1 [] fs2 (Raise (IsADirectoryError (log_file P fs))).
Proof.
  intros H Hrc Hlog. attempt H. exit_code Hrc. unfold open_read. rewrite Hlog.
  mred. reflexivity.
Qed.

(** When the source cannot be written the call ends there. *)
Lemma unwritable fs ev fs1 e :
  open_x_write P (tex_file P self fs) (source self) (<[workspace P fs := Dir]> fs)
  = (ev, fs1, Raise e) ->
  _process_tex P st self (Callable cb) fs
  = ([EvMkdtemp (workspace P fs); EvRmtree (workspace P fs)],
     rmtree (workspace P fs) fs1, Raise e).
Proof.
  intros Hw.
  pose proof (open_x_write_events P (tex_file P self fs) (source self)
                (<[workspace P fs := Dir]> fs)) as Hev.
  rewrite Hw in Hev. cbn in Hev. subst ev. names.
  unfold _process_tex, with_TemporaryDirectory, mbind, M_bind, bind.
  cbn [callable negb]. by rewrite Hw.
Qed.

(** X1.  With exit code 1 the call always raises and the call back is
    never entered, even when the interpreter has left a pdf file. *)
Theorem exit_1_always_raises fs fs1 fs2 process :
  compile_attempt P st self fs = Some (fs1, fs2, process) ->
  returncode process = 1%Z ->
  exists e,
    _process_tex P st self (Callable cb) fs = ended P st self fs fs1 [] fs2 (Raise e).
Proof.
  intros H Hrc. destruct (fs2 !! log_file P fs) as [[content|]|] eqn:Hlog.
  - rewrite (log_present fs fs1 fs2 process content H Hrc Hlog).
    destruct (utf8_decode content); eauto.
  - rewrite (log_is_directory fs fs1 fs2 process H Hrc Hlog). eauto.
  - rewrite (missing_log P st self cb fs fs1 fs2 process H Hrc Hlog).
    destruct (stderr process); [eauto|]. destruct (utf8_decode _); eauto.
Qed.

(** X2.  Bytes that are not utf-8 end the call with
    [UnicodeDecodeError]: a [texput.log] of such bytes at exit code 1,
    where no [TexError] is raised, and an error output of such bytes
    when the pdf file is missing. *)
Theorem undecodable_output fs fs1 fs2 process :
  compile_attempt P st self fs = Some (fs1, fs2, process) ->
  (forall content,
     returncode process = 1%Z ->
     fs2 !! log_file P fs = Some (File content) ->
     utf8_decode content = None ->
     _process_tex P st self (Callable cb) fs
     = ended P st self fs fs1 [] fs2 (Raise UnicodeDecodeError))
  /\ (returncode process <> 1%Z ->
      isfile fs2 (pdf_file P self fs) = false ->
      stderr process <> [] ->
      utf8_decode (stderr process) = None ->
      _process_tex P st self (Callable cb) fs
      = ended P st self fs fs1 [] fs2 (Raise UnicodeDecodeError)).
Proof.
  intros H. split.
  - intros content Hrc Hlog Hdec.
    by rewrite (log_present fs fs1 fs2 process content H Hrc Hlog), Hdec.
  - intros Hrc Hpdf Hne Hdec.
    rewrite (missing_pdf P st self cb fs fs1 fs2 process H Hrc Hpdf), Hdec.
    by destruct (stderr process).
Qed.

(** X3.  When the source file cannot be made, the interpreter is not
    run, the work space is removed, and the error is raised as it is.
    A name that cannot be encoded raises [UnicodeEncodeError] and a
    name with a null character [ValueError]; with any other name, what
    the operating system refuses the creation with is what the call
    raises, also a [FileNotFoundError], which nothing replaces here;
    and a source that utf-8 cannot encode raises [UnicodeEncodeError]
    after the file was created, which is then empty. *)
Theorem source_not_written fs :
  let tempdir := workspace P fs in
  let fs0 := <[tempdir := Dir]> fs in
  let filename := tex_file P self fs in
  (fsencodable filename = false ->
   _process_tex P st self (Callable cb) fs
   = ([EvMkdtemp tempdir; EvRmtree tempdir], rmtree tempdir fs0, Raise UnicodeEncodeError))
  /\ (fsencodable filename = true ->
      (0 ∈ filename ->
       _process_tex P st self (Callable cb) fs
       = ([EvMkdtemp tempdir; EvRmtree tempdir], rmtree tempdir fs0,
          Raise (ValueError (py "embedded null byte"))))
      /\ (0 ∉ filename ->
          (forall e,
             refuses P filename fs0 = Some e ->
             _process_tex P st self (Callable cb) fs
             = ([EvMkdtemp tempdir; EvRmtree tempdir], rmtree tempdir fs0, Raise e))
          /\ (refuses P filename fs0 = None ->
              fs0 !! filename = None ->
              utf8_encode (source self) = None ->
              _process_tex P st self (Callable cb) fs
              = ([EvMkdtemp tempdir; EvRmtree tempdir],
                 rmtree tempdir (<[filename := File []]> fs0), Raise UnicodeEncodeError)))).
Proof.
  intros tempdir fs0 filename. subst tempdir fs0 filename. split; [|intros Hname; split].
  - intros Hname. apply (unwritable fs []). unfold open_x_write. by rewrite Hname.
  - intros Hnul. apply (unwritable fs []). unfold open_x_write.
    by rewrite Hname, (bool_decide_eq_true_2 _ Hnul).
  - intros Hnul. split.
    + intros e Hre. apply (unwritable fs []). by apply open_x_write_refused.
    + intros Hre Hnew Henc. apply (unwritable fs []). unfold open_x_write.
      by rewrite Hname, (bool_decide_eq_false_2 _ Hnul), Hre, Hnew, Henc.
Qed.
End Ways.

(** X1 at work: [lualatex] stops at an error after the first page; the
    pdf file is there, and still the call raises. *)
Lemma exit_1_always_raises_witness :
  let P := Scenario.machine log_and_pdf 1 [] in
  let cb := _get_pdf_worker Scenario.texput in
  let fs2 := Scenario.left log_and_pdf Scenario.texput in
  compile_attempt P Scenario.unset Scenario.texput Scenario.disk
  = Some (Scenario.written Scenario.texput, fs2, Scenario.answer 1 [])
  /\ returncode (Scenario.answer 1 []) = 1%Z
  /\ isfile fs2 (pdf_file P Scenario.texput Scenario.disk) = true
  /\ exists e,
       (_process_tex P Scenario.unset Scenario.texput (Callable cb) Scenario.disk).2 = Raise e.
Proof.
  intros P cb fs2. split; [closed|]. split; [closed|]. split; [closed|].
  destruct (exit_1_always_raises P Scenario.unset Scenario.texput cb Scenario.disk
              (Scenario.written Scenario.texput) fs2 (Scenario.answer 1 []))
    as [e He]; [closed | closed |].
  exists e. exact (f_equal snd He).
Defined.

(** X2 at work: a log in latin-1. *)
Lemma undecodable_output_witness :
  let P := Scenario.machine latin1_log 1 [] in
  let cb := _get_pdf_worker Scenario.texput in
  let fs2 := Scenario.left latin1_log Scenario.texput in
  compile_attempt P Scenario.unset Scenario.texput Scenario.disk
  = Some (Scenario.written Scenario.texput, fs2, Scenario.answer 1 [])
  /\ fs2 !! log_file P Scenario.disk = Some (File [Byte.xe9; Byte.x0a])
  /\ utf8_decode [Byte.xe9; Byte.x0a] = None
  /\ (_process_tex P Scenario.unset Scenario.texput (Callable cb) Scenario.disk).2
     = Raise UnicodeDecodeError.
Proof.
  intros P cb fs2. split; [closed|]. split; [closed|]. split; [closed|].
  refine (f_equal snd
            (proj1 (undecodable_output P Scenario.unset Scenario.texput cb Scenario.disk
                      (Scenario.written Scenario.texput) fs2 (Scenario.answer 1 []) _)
               [Byte.xe9; Byte.x0a] _ _ _));
    closed.
Defined.

(** X3 at work: the base name [sub/texput] in a new work space, where
    there is no directory [sub]. *)
Lemma source_not_written_witness :
  let P := Scenario.machine Scenario.texput_pdf 0 [] in
  let cb := _get_pdf_worker nested in
  let filename := tex_file P nested Scenario.disk in
  let e := FileNotFoundError (Errno2 (Scenario.at_tmp "sub/texput.tex")) in
  fsencodable filename = true
  /\ (0 ∉ filename)
  /\ refuses P filename (<[workspace P Scenario.disk := Dir]> Scenario.disk) = Some e
  /\ _process_tex P Scenario.unset nested (Callable cb) Scenario.disk
     = ([EvMkdtemp Scenario.tmp; EvRmtree Scenario.tmp], Scenario.disk, Raise e).
Proof.
  intros P cb filename e.
  assert (0 ∉ filename) as Hnul by compute_done.
  split; [closed|]. split; [exact Hnul|]. split; [closed|].
  refine (eq_trans
            (proj1 (proj2 (proj2 (source_not_written P Scenario.unset nested cb Scenario.disk)
                                 _) Hnul) e _)
            _);
    closed.
Defined.

(** ** Reading and printing the pdf file *)

Section Workers.
Context (P : platform) (st : Settings) (self : TexBuildCore).

(** When the call back is not entered, the removal works on what the
    interpreter has left. *)
Lemma not_entered {R : Type} (cb : str -> str -> M R) fs fs1 fs2 process :
  compile_attempt P st self fs = Some (fs1, fs2, process) ->
  returncode process = 1%Z \/ isfile fs2 (pdf_file P self fs) = false ->
  (_process_tex P st self (Callable cb) fs).1.2 = rmtree (workspace P fs) fs2.
Proof.
  intros H Hno. destruct (Z.eq_dec (returncode process) 1) as [Hrc|Hrc].
  - destruct (fs2 !! log_file P fs) as [[content|]|] eqn:Hlog.
    + by rewrite (log_present P st self cb fs fs1 fs2 process content H Hrc Hlog).
    + by rewrite (log_is_directory P st self cb fs fs1 fs2 process H Hrc Hlog).
    + by rewrite (missing_log P st self cb fs fs1 fs2 process H Hrc Hlog).
  - destruct Hno as [?|Hpdf]; [done|].
    rewrite (missing_pdf P st self cb fs fs1 fs2 process H Hrc Hpdf).
    by destruct (stderr process).
Qed.

(** X4.  After a compile that succeeded, [get_pdf] returns the bytes of
    [<work space>/<base_filename>.pdf] as the interpreter left them;
    nothing is run or logged besides, and the work space is removed. *)
Theorem get_pdf_returns_the_file fs fs1 fs2 process content :
  compile_attempt P st self fs = Some (fs1, fs2, process) ->
  returncode process <> 1%Z ->
  fs2 !! pdf_file P self fs = Some (File content) ->
  get_pdf P st self fs
  = ended P st self fs fs1 [EvCall (workspace P fs) (pdf_name self) fs2] fs2
      (Return content).
Proof.
  intros H Hrc Hpdf. unfold get_pdf.
  apply (call_back_entered P st self (_get_pdf_worker self) fs fs1 fs2 process [] fs2
           (Return content) H Hrc).
  - unfold isfile. by rewrite Hpdf.
  - unfold _get_pdf_worker, open_rb_read. names. by rewrite Hpdf.
Qed.

(** X5.  After a compile that succeeded, [print_pdf_unix] runs the
    print command, with the extra option of this call and the quoted
    path of the pdf file in the work space, while the work space is
    still there; when the command exits with code 0 and is silent,
    [None] is returned. *)
Theorem print_pdf_unix_prints fs fs1 fs2 process extra fs3 printed :
  let cmd := print_invocation st (with_option self extra) (workspace P fs) (pdf_name self) in
  compile_attempt P st self fs = Some (fs1, fs2, process) ->
  returncode process <> 1%Z ->
  isfile fs2 (pdf_file P self fs) = true ->
  shell P cmd fs2 = (fs3, printed) ->
  returncode printed = 0%Z ->
  stderr printed = [] ->
  print_pdf_unix P st self extra fs
  = ended P st self fs fs1
      (EvCall (workspace P fs) (pdf_name self) fs2 :: device_notice st ++ [EvRun cmd fs2])
      fs3 (Return tt).
Proof.
  intros cmd H Hrc Hpdf Hs Hrc' Herr. unfold print_pdf_unix. cbv zeta.
  change {| source := source self; base_filename := base_filename self;
            _extra_printing_option := extra |} with (with_option self extra).
  apply (call_back_entered P st (with_option self extra)
           (_print_pdf_worker_unix P st (with_option self extra)) fs fs1 fs2 process
           (device_notice st ++ [EvRun cmd fs2]) fs3 (Return tt) H Hrc Hpdf).
  change (pdf_name (with_option self extra)) with (pdf_name self).
  rewrite (print_worker_runs P st (with_option self extra) _ _ fs2 fs3 printed Hs).
  cbv zeta. by rewrite Hrc', Herr.
Qed.

(** X6.  When the print command exits with another code than 0, the
    [PrintError] that names the command and the decoded error output
    is what [print_pdf_unix] raises, whatever the interpreter had
    written to its own error output; the work space is removed. *)
Theorem print_error_reaches_the_caller fs fs1 fs2 process extra fs3 printed err :
  let cmd := print_invocation st (with_option self extra) (workspace P fs) (pdf_name self) in
  compile_attempt P st self fs = Some (fs1, fs2, process) ->
  returncode process <> 1%Z ->
  isfile fs2 (pdf_file P self fs) = true ->
  shell P cmd fs2 = (fs3, printed) ->
  returncode printed <> 0%Z ->
  utf8_decode (stderr printed) = Some err ->
  print_pdf_unix P st self extra fs
  = ended P st self fs fs1
      (EvCall (workspace P fs) (pdf_name self) fs2 :: device_notice st ++ [EvRun cmd fs2])
      fs3
      (Raise (PrintError (py "Printing with '" ++ cmd
                            ++ py "' resulted in an error. '" ++ err ++ py "'"))).
Proof.
  intros cmd H Hrc Hpdf Hs Hrc' Herr. unfold print_pdf_unix. cbv zeta.
  change {| source := source self; base_filename := base_filename self;
            _extra_printing_option := extra |} with (with_option self extra).
  apply (call_back_entered P st (with_option self extra)
           (_print_pdf_worker_unix P st (with_option self extra)) fs fs1 fs2 process
           (device_notice st ++ [EvRun cmd fs2]) fs3
           (Raise (PrintError (error_message cmd err))) H Hrc Hpdf).
  change (pdf_name (with_option self extra)) with (pdf_name self).
  rewrite (print_worker_runs P st (with_option self extra) _ _ fs2 fs3 printed Hs).
  cbv zeta. by rewrite (proj2 (Z.eqb_neq _ _) Hrc'), Herr.
Qed.

(** X7.  Error output of the print command that is not utf-8 makes the
    worker raise [UnicodeDecodeError], whatever the exit code was, 0
    included. *)
Theorem print_undecodable_stderr tempdir pdf_filename fs fs' process :
  let cmd := print_invocation st self tempdir pdf_filename in
  shell P cmd fs = (fs', process) ->
  stderr process <> [] ->
  utf8_decode (stderr process) = None ->
  _print_pdf_worker_unix P st self tempdir pdf_filename fs
  = (device_notice st ++ [EvRun cmd fs], fs', Raise UnicodeDecodeError).
Proof.
  intros cmd Hs Hne Hdec.
  rewrite (print_worker_runs P st self tempdir pdf_filename fs fs' process Hs).
  cbv zeta. rewrite Hdec. destruct (stderr process); [done|].
  by destruct (negb _).
Qed.
End Workers.

(** X4 at work: the four bytes of the pdf file come back. *)
Lemma get_pdf_returns_the_file_witness :
  let P := Scenario.machine Scenario.texput_pdf 0 [] in
  let fs2 := Scenario.left Scenario.texput_pdf Scenario.texput in
  compile_attempt P Scenario.unset Scenario.texput Scenario.disk
  = Some (Scenario.written Scenario.texput, fs2, Scenario.answer 0 [])
  /\ returncode (Scenario.answer 0 []) <> 1%Z
  /\ fs2 !! pdf_file P Scenario.texput Scenario.disk = Some (File Scenario.pdf_bytes)
  /\ (get_pdf P Scenario.unset Scenario.texput Scenario.disk).2 = Return Scenario.pdf_bytes.
Proof.
  intros P fs2. split; [closed|]. split; [closed|]. split; [closed|].
  refine (f_equal snd
            (get_pdf_returns_the_file P Scenario.unset Scenario.texput Scenario.disk
               (Scenario.written Scenario.texput) fs2 (Scenario.answer 0 [])
               Scenario.pdf_bytes _ _ _));
    closed.
Defined.

(** X5 at work: two copies on printer [hp 1]. *)
Lemma print_pdf_unix_prints_witness :
  let P := Scenario.machine Scenario.texput_pdf 0 [] in
  let fs2 := Scenario.left Scenario.texput_pdf Scenario.texput in
  let cmd := py "lp -d 'hp 1' -o media=a4 -n 2 /tmp/tmpk3q9x/texput.pdf" in
  compile_attempt P Scenario.to_hp1 Scenario.texput Scenario.disk
  = Some (Scenario.written Scenario.texput, fs2, Scenario.answer 0 [])
  /\ isfile fs2 (pdf_file P Scenario.texput Scenario.disk) = true
  /\ shell P cmd fs2 = (fs2, Scenario.answer 0 [])
  /\ (print_pdf_unix P Scenario.to_hp1 Scenario.texput (py "-n 2") Scenario.disk).1.1
     = [EvMkdtemp Scenario.tmp;
        EvRun (latex_command Scenario.to_hp1 Scenario.tmp (Scenario.at_tmp "texput.tex"))
          (Scenario.written Scenario.texput);
        EvCall Scenario.tmp (py "texput.pdf") fs2;
        EvRun cmd fs2;
        EvRmtree Scenario.tmp]
  /\ (print_pdf_unix P Scenario.to_hp1 Scenario.texput (py "-n 2") Scenario.disk).2
     = Return tt.
Proof.
  intros P fs2 cmd. split; [closed|]. split; [closed|]. split; [closed|].
  pose proof (print_pdf_unix_prints P Scenario.to_hp1 Scenario.texput Scenario.disk
                (Scenario.written Scenario.texput) fs2 (Scenario.answer 0 [])
                (py "-n 2") fs2 (Scenario.answer 0 [])
                eq_refl ltac:(closed) eq_refl eq_refl eq_refl eq_refl) as E.
  split; [exact (f_equal (fun o => o.1.1) E) | exact (f_equal snd E)].
Defined.

(** X6 at work: the interpreter had warned on its error output, and
    [lp] then fails. *)
Lemma print_error_reaches_the_caller_witness :
  let P := Scenario.machine Scenario.texput_pdf 2 [Byte.x21] in
  let fs2 := Scenario.left Scenario.texput_pdf Scenario.texput in
  let cmd := py "lp -d 'hp 1' -o media=a4 -n 2 /tmp/tmpk3q9x/texput.pdf" in
  compile_attempt P Scenario.to_hp1 Scenario.texput Scenario.disk
  = Some (Scenario.written Scenario.texput, fs2, Scenario.answer 2 [Byte.x21])
  /\ isfile fs2 (pdf_file P Scenario.texput Scenario.disk) = true
  /\ shell P cmd fs2 = (fs2, Scenario.answer 2 [Byte.x21])
  /\ (print_pdf_unix P Scenario.to_hp1 Scenario.texput (py "-n 2") Scenario.disk).2
     = Raise (PrintError
                (py "Printing with 'lp -d 'hp 1' -o media=a4 -n 2 /tmp/tmpk3q9x/texput.pdf' resulted in an error. '!'")).
Proof.
  intros P fs2 cmd. split; [closed|]. split; [closed|]. split; [closed|].
  exact (f_equal snd
           (print_error_reaches_the_caller P Scenario.to_hp1 Scenario.texput Scenario.disk
              (Scenario.written Scenario.texput) fs2 (Scenario.answer 2 [Byte.x21])
              (py "-n 2") fs2 (Scenario.answer 2 [Byte.x21]) (py "!")
              eq_refl ltac:(closed) eq_refl eq_refl ltac:(closed) eq_refl)).
Defined.

(** X7 at work: [lp] exits with code 0 after a message in latin-1. *)
Lemma print_undecodable_stderr_witness :
  let P := Scenario.machine [] 0 [Byte.xe9] in
  let fs := Scenario.left Scenario.texput_pdf Scenario.texput in
  let cmd := print_invocation Scenario.to_hp1 Scenario.two_copies
               Scenario.tmp (py "texput.pdf") in
  shell P cmd fs = (fs, Scenario.answer 0 [Byte.xe9])
  /\ stderr (Scenario.answer 0 [Byte.xe9]) <> []
  /\ utf8_decode (stderr (Scenario.answer 0 [Byte.xe9])) = None
  /\ (_print_pdf_worker_unix P Scenario.to_hp1 Scenario.two_copies
        Scenario.tmp (py "texput.pdf") fs).2
     = Raise UnicodeDecodeError.
Proof.
  intros P fs cmd. split; [closed|]. split; [closed|]. split; [closed|].
  refine (f_equal snd
            (print_undecodable_stderr P Scenario.to_hp1 Scenario.two_copies
               Scenario.tmp (py "texput.pdf") fs fs (Scenario.answer 0 [Byte.xe9]) _ _ _));
    closed.
Defined.

(** ** From a template to the pdf file *)

Section Entry.
Context (P : platform) (st : Settings).
Context {Ctx : Type} (render : str -> Ctx -> M str).

(** The outcome of a compile, after the events of the rendering. *)
Lemma after_rendering {A : Type} (k : str -> M A) template_name context fs ev fs' rendered :
  render template_name context fs = (ev, fs', Return rendered) ->
  (render template_name context ≫= k) fs
  = (ev ++ (k rendered fs').1.1, (k rendered fs').1.2, (k rendered fs').2).
Proof. apply bind_Return. Qed.

(** X8.  [compile_template_to_pdf] compiles what the template engine
    renders, under the base name [texput].  An exception of the engine
    is raised as it is, and then no work space is made and nothing is
    run.  When the interpreter exits with code 1 and leaves a log, the
    [TexError] carries the log and the rendered text; after a compile
    that succeeded the bytes of [texput.pdf] are returned. *)
Theorem compile_template_to_pdf_outcomes template_name context fs :
  (forall ev fs' e,
     render template_name context fs = (ev, fs', Raise e) ->
     compile_template_to_pdf P st render template_name context fs = (ev, fs', Raise e))
  /\ (forall ev fs' rendered fs1 fs2 process,
        render template_name context fs = (ev, fs', Return rendered) ->
        let self := __init__ rendered (py "texput") in
        compile_attempt P st self fs' = Some (fs1, fs2, process) ->
        (forall content text,
           returncode process = 1%Z ->
           fs2 !! log_file P fs' = Some (File content) ->
           utf8_decode content = Some text ->
           (compile_template_to_pdf P st render template_name context fs).2
           = Raise (TexError (universal_newlines text) rendered))
        /\ (forall content,
              returncode process <> 1%Z ->
              fs2 !! pdf_file P self fs' = Some (File content) ->
              compile_template_to_pdf P st render template_name context fs
              = (ev ++ [EvMkdtemp (workspace P fs');
                        EvRun (latex_command st (workspace P fs') (tex_file P self fs')) fs1;
                        EvCall (workspace P fs') (py "texput.pdf") fs2;
                        EvRmtree (workspace P fs')],
                 rmtree (workspace P fs') fs2, Return content))).
Proof.
  split.
  - intros ev fs' e Hr. unfold compile_template_to_pdf. by apply bind_Raise.
  - intros ev fs' rendered fs1 fs2 process Hr self H. split.
    + intros content text Hrc Hlog Hdec. unfold compile_template_to_pdf.
      rewrite (after_rendering _ _ _ _ _ _ _ Hr). cbn [snd].
      unfold run_tex, get_pdf. fold self.
      by rewrite (log_present P st self (_get_pdf_worker self) fs' fs1 fs2 process
                    content H Hrc Hlog), Hdec.
    + intros content Hrc Hpdf. unfold compile_template_to_pdf.
      rewrite (after_rendering _ _ _ _ _ _ _ Hr).
      unfold run_tex, get_pdf. fold self.
      rewrite (call_back_entered P st self (_get_pdf_worker self) fs' fs1 fs2 process []
                 fs2 (Return content) H Hrc).
      * reflexivity.
      * unfold isfile. by rewrite Hpdf.
      * unfold _get_pdf_worker, open_rb_read. names. by rewrite Hpdf.
Qed.

(** X9.  [compile_template_and_sent_to_printer] passes an exception of
    the template engine on as it is, without making a work space or
    running anything; after a compile that succeeded it runs the print
    command with the extra options it was given on [texput.pdf], and
    returns [None] when that command exits with code 0 and is silent. *)
Theorem compile_template_and_sent_to_printer_outcomes template_name context extra_options fs :
  (forall ev fs' e,
     render template_name context fs = (ev, fs', Raise e) ->
     compile_template_and_sent_to_printer P st render template_name context extra_options fs
     = (ev, fs', Raise e))
  /\ (forall ev fs' rendered fs1 fs2 process fs3 printed,
        render template_name context fs = (ev, fs', Return rendered) ->
        let self := __init__ rendered (py "texput") in
        let cmd := print_invocation st (with_option self extra_options)
                     (workspace P fs') (py "texput.pdf") in
        compile_attempt P st self fs' = Some (fs1, fs2, process) ->
        returncode process <> 1%Z ->
        isfile fs2 (pdf_file P self fs') = true ->
        shell P cmd fs2 = (fs3, printed) ->
        returncode printed = 0%Z ->
        stderr printed = [] ->
        compile_template_and_sent_to_printer P st render template_name context extra_options fs
        = (ev ++ EvMkdtemp (workspace P fs')
              :: EvRun (latex_command st (workspace P fs') (tex_file P self fs')) fs1
              :: EvCall (workspace P fs') (py "texput.pdf") fs2
              :: device_notice st ++ [EvRun cmd fs2; EvRmtree (workspace P fs')],
           rmtree (workspace P fs') fs3, Return tt)).
Proof.
  split.
  - intros ev fs' e Hr. unfold compile_template_and_sent_to_printer. by apply bind_Raise.
  - intros ev fs' rendered fs1 fs2 process fs3 printed Hr self cmd H Hrc Hpdf Hs Hrc' Herr.
    unfold compile_template_and_sent_to_printer.
    rewrite (after_rendering _ _ _ _ _ _ _ Hr). cbv zeta. fold self.
    unfold print_pdf_unix. cbv zeta.
    change {| source := source self; base_filename := base_filename self;
              _extra_printing_option := extra_options |} with (with_option self extra_options).
    rewrite (call_back_entered P st (with_option self extra_options)
               (_print_pdf_worker_unix P st (with_option self extra_options))
               fs' fs1 fs2 process (device_notice st ++ [EvRun cmd fs2]) fs3 (Return tt)
               H Hrc Hpdf).
    + unfold ended. cbn [fst snd app]. by rewrite <- app_assoc.
    + change (pdf_name (with_option self extra_options)) with (py "texput.pdf").
      rewrite (print_worker_runs P st (with_option self extra_options) _ _ fs2 fs3 printed Hs).
      cbv zeta. by rewrite Hrc', Herr.
Qed.
End Entry.

(** X8 at work: a letter is rendered and compiled. *)
Lemma compile_template_to_pdf_outcomes_witness :
  let P := Scenario.machine Scenario.texput_pdf 0 [] in
  let fs2 := Scenario.left Scenario.texput_pdf Scenario.texput in
  renders (py "letter.tex") tt Scenario.disk
  = ([], Scenario.disk, Return (source Scenario.texput))
  /\ compile_attempt P Scenario.unset Scenario.texput Scenario.disk
     = Some (Scenario.written Scenario.texput, fs2, Scenario.answer 0 [])
  /\ fs2 !! pdf_file P Scenario.texput Scenario.disk = Some (File Scenario.pdf_bytes)
  /\ (compile_template_to_pdf P Scenario.unset renders (py "letter.tex") tt Scenario.disk).2
     = Return Scenario.pdf_bytes.
Proof.
  intros P fs2. split; [closed|]. split; [closed|]. split; [closed|].
  exact (f_equal snd
           (proj2 (proj2 (compile_template_to_pdf_outcomes P Scenario.unset renders
                            (py "letter.tex") tt Scenario.disk)
                     [] Scenario.disk (source Scenario.texput)
                     (Scenario.written Scenario.texput) fs2 (Scenario.answer 0 [])
                     eq_refl eq_refl)
              Scenario.pdf_bytes ltac:(closed) eq_refl)).
Defined.

(** X9 at work: a letter is rendered, compiled and printed twice. *)
Lemma compile_template_and_sent_to_printer_outcomes_witness :
  let P := Scenario.machine Scenario.texput_pdf 0 [] in
  let fs2 := Scenario.left Scenario.texput_pdf Scenario.texput in
  let cmd := py "lp -d 'hp 1' -o media=a4 -n 2 /tmp/tmpk3q9x/texput.pdf" in
  renders (py "letter.tex") tt Scenario.disk
  = ([], Scenario.disk, Return (source Scenario.texput))
  /\ compile_attempt P Scenario.to_hp1 Scenario.texput Scenario.disk
     = Some (Scenario.written Scenario.texput, fs2, Scenario.answer 0 [])
  /\ isfile fs2 (pdf_file P Scenario.texput Scenario.disk) = true
  /\ shell P cmd fs2 = (fs2, Scenario.answer 0 [])
  /\ (compile_template_and_sent_to_printer P Scenario.to_hp1 renders
        (py "letter.tex") tt (py "-n 2") Scenario.disk).2
     = Return tt.
Proof.
  intros P fs2 cmd. split; [closed|]. split; [closed|]. split; [closed|]. split; [closed|].
  exact (f_equal snd
           (proj2 (compile_template_and_sent_to_printer_outcomes P Scenario.to_hp1 renders
                     (py "letter.tex") tt (py "-n 2") Scenario.disk)
              [] Scenario.disk (source Scenario.texput)
              (Scenario.written Scenario.texput) fs2 (Scenario.answer 0 [])
              fs2 (Scenario.answer 0 [])
              eq_refl eq_refl ltac:(closed) eq_refl eq_refl eq_refl eq_refl)).
Defined.

(** ** The work space and what lies outside it *)

Lemma join_absolute_name (d name : str) : startswith_sep name = true -> join d name = name.
Proof. intros Hn. unfold join. by rewrite Hn. Qed.

Lemma startswith_sep_app (name ext : str) :
  startswith_sep name = true -> startswith_sep (name ++ ext) = true.
Proof. by destruct name. Qed.

Section Outside.
Context (P : platform) (st : Settings) (self : TexBuildCore).
Context {R : Type} (cb : str -> str -> M R).

(** X10.  Removing the work space removes nothing else: any other
    path is, after the call, what the interpreter left there when the
    call back was not entered, and what the call back left there when
    it was. *)
Theorem cleanup_spares_the_rest fs fs1 fs2 process p :
  compile_attempt P st self fs = Some (fs1, fs2, process) ->
  under (workspace P fs) p = false ->
  (returncode process = 1%Z \/ isfile fs2 (pdf_file P self fs) = false ->
   (_process_tex P st self (Callable cb) fs).1.2 !! p = fs2 !! p)
  /\ (returncode process <> 1%Z ->
      isfile fs2 (pdf_file P self fs) = true ->
      forall ev fs3 r,
        cb (workspace P fs) (pdf_name self) fs2 = (ev, fs3, r) ->
        (_process_tex P st self (Callable cb) fs).1.2 !! p = fs3 !! p).
Proof.
  intros H Hp. split.
  - intros Hno. rewrite (not_entered P st self cb fs fs1 fs2 process H Hno).
    by apply rmtree_other.
  - intros Hrc Hpdf ev fs3 r Hcb.
    rewrite (call_back_entered P st self cb fs fs1 fs2 process ev fs3 r H Hrc Hpdf Hcb).
    by apply rmtree_other.
Qed.

(** X11.  A base name that starts with [/] takes the source file out of
    the work space: [os.path.join] drops the directory, the source is
    written to [<base_filename>.tex] itself, and since the removal of
    the work space does not reach it, it is still there after a call
    that failed, unless the interpreter has taken it away. *)
Theorem absolute_base_filename_escapes fs fs1 fs2 process :
  startswith_sep (base_filename self) = true ->
  compile_attempt P st self fs = Some (fs1, fs2, process) ->
  tex_file P self fs = base_filename self ++ py ".tex"
  /\ isfile fs1 (base_filename self ++ py ".tex") = true
  /\ (under (workspace P fs) (base_filename self ++ py ".tex") = false ->
      returncode process = 1%Z \/ isfile fs2 (pdf_file P self fs) = false ->
      (_process_tex P st self (Callable cb) fs).1.2 !! (base_filename self ++ py ".tex")
      = fs2 !! (base_filename self ++ py ".tex")).
Proof.
  intros Habs H.
  assert (tex_file P self fs = base_filename self ++ py ".tex") as Htex.
  { unfold tex_file. by apply join_absolute_name, startswith_sep_app. }
  split; [done|]. split.
  - destruct (attempt_inv P st self fs fs1 fs2 process H) as [Hw _].
    apply open_x_write_Return in Hw as (content & _ & _ & ->).
    fold (workspace P fs) in *. fold (tex_file P self fs). rewrite <- Htex.
    unfold isfile. by rewrite lookup_insert_eq.
  - intros Hout Hno. rewrite (not_entered P st self cb fs fs1 fs2 process H Hno).
    by apply rmtree_other.
Qed.

(** X12.  A run count of 0 or less runs the interpreter not once: the
    command is the [cd] into the work space and nothing more. *)
Theorem no_run_only_cd fs fs1 fs2 process :
  compile_attempt P st self fs = Some (fs1, fs2, process) ->
  (getattr (LATEX_RUN_COUNT st) 1 <= 0)%Z ->
  exists ev,
    (_process_tex P st self (Callable cb) fs).1.1
    = EvMkdtemp (workspace P fs)
        :: EvRun (py "cd " ++ [dquote] ++ workspace P fs ++ [dquote] ++ py " ") fs1
        :: ev.
Proof.
  intros H Hn.
  destruct (attempt_events P st self cb fs fs1 fs2 process H) as (ev & -> & _).
  eexists. unfold latex_command, DEFAULT_RUN_COUNT, str_mul.
  replace (Z.to_nat (getattr (LATEX_RUN_COUNT st) 1%Z)) with 0%nat by lia.
  cbn [replicate concat]. by rewrite app_nil_r.
Qed.

(** X13.  What the interpreter or the print command writes to its
    standard output plays no part: with any other output there, the
    call and the print worker do the same. *)
Theorem stdout_is_ignored (out : bytes) fs :
  _process_tex P st self (Callable cb) fs
  = _process_tex (saying out P) st self (Callable cb) fs
  /\ forall tempdir pdf_filename,
       _print_pdf_worker_unix P st self tempdir pdf_filename fs
       = _print_pdf_worker_unix (saying out P) st self tempdir pdf_filename fs.
Proof.
  split.
  - destruct (open_x_write P (tex_file P self fs) (source self)
                (<[workspace P fs := Dir]> fs)) as [[ev fs1] [[]|e]] eqn:Hw.
    + destruct (shell P (latex_command st (workspace P fs) (tex_file P self fs)) fs1)
        as [fs2 process] eqn:Hs.
      assert (compile_attempt P st self fs = Some (fs1, fs2, process)) as H
          by (unfold compile_attempt; by rewrite Hw, Hs).
      assert (compile_attempt (saying out P) st self fs
              = Some (fs1, fs2, {| returncode := returncode process; stdout := out;
                                   stderr := stderr process |})) as H'.
      { unfold compile_attempt.
        change (workspace (saying out P) fs) with (workspace P fs).
        change (tex_file (saying out P) self fs) with (tex_file P self fs).
        rewrite (open_x_write_ext P (saying out P)) by done.
        rewrite Hw. cbn [saying shell]. by rewrite Hs. }
      attempt H. symmetry. attempt H'. reflexivity.
    + rewrite (unwritable P st self cb fs ev fs1 e Hw).
      rewrite <- (open_x_write_ext P (saying out P)) in Hw by done.
      by rewrite (unwritable (saying out P) st self cb fs ev fs1 e Hw).
  - intros tempdir pdf_filename.
    destruct (shell P (print_invocation st self tempdir pdf_filename) fs)
      as [fs' process] eqn:Hs.
    rewrite (print_worker_runs P st self tempdir pdf_filename fs fs' process Hs).
    rewrite (print_worker_runs (saying out P) st self tempdir pdf_filename fs fs'
               {| returncode := returncode process; stdout := out;
                  stderr := stderr process |}).
    + reflexivity.
    + cbn [saying shell]. by rewrite Hs.
Qed.

End Outside.

(** X10 at work: [/tmp] is still there after the call. *)
Lemma cleanup_spares_the_rest_witness :
  let P := Scenario.machine Scenario.texput_pdf 0 [] in
  let cb := _get_pdf_worker Scenario.texput in
  let fs2 := Scenario.left Scenario.texput_pdf Scenario.texput in
  compile_attempt P Scenario.unset Scenario.texput Scenario.disk
  = Some (Scenario.written Scenario.texput, fs2, Scenario.answer 0 [])
  /\ under (workspace P Scenario.disk) (py "/tmp") = false
  /\ isfile fs2 (pdf_file P Scenario.texput Scenario.disk) = true
  /\ (_process_tex P Scenario.unset Scenario.texput (Callable cb) Scenario.disk).1.2
       !! py "/tmp" = Some Dir.
Proof.
  intros P cb fs2. split; [closed|]. split; [closed|]. split; [closed|].
  refine (eq_trans
            (proj2 (cleanup_spares_the_rest P Scenario.unset Scenario.texput cb Scenario.disk
                      (Scenario.written Scenario.texput) fs2 (Scenario.answer 0 [])
                      (py "/tmp") _ _)
               _ _ [] fs2 (Return Scenario.pdf_bytes) _)
            _);
    closed.
Defined.

(** X11 at work: with the base name [/srv/out] the source lands in
    [/srv] and stays there. *)
Lemma absolute_base_filename_escapes_witness :
  let P := Scenario.machine Scenario.texput_pdf 0 [] in
  let cb := _get_pdf_worker absolute in
  let content := default [] (utf8_encode (source absolute)) in
  let fs1 := <[py "/srv/out.tex" := File content]> (<[Scenario.tmp := Dir]> disk_srv) in
  let fs2 := list_to_map Scenario.texput_pdf ∪ fs1 in
  startswith_sep (base_filename absolute) = true
  /\ compile_attempt P Scenario.unset absolute disk_srv
     = Some (fs1, fs2, Scenario.answer 0 [])
  /\ under (workspace P disk_srv) (py "/srv/out.tex") = false
  /\ isfile fs2 (pdf_file P absolute disk_srv) = false
  /\ (_process_tex P Scenario.unset absolute (Callable cb) disk_srv).1.2 !! py "/srv/out.tex"
     = Some (File content).
Proof.
  intros P cb content fs1 fs2. split; [closed|]. split; [closed|]. split; [closed|].
  split; [closed|].
  refine (eq_trans
            (proj2 (proj2 (absolute_base_filename_escapes P Scenario.unset absolute cb
                             disk_srv fs1 fs2 (Scenario.answer 0 []) _ _))
               _ (or_intror _))
            _);
    closed.
Defined.

(** X12 at work: a run count of 0. *)
Lemma no_run_only_cd_witness :
  let P := Scenario.machine [] 0 [] in
  let cb := _get_pdf_worker Scenario.texput in
  compile_attempt P no_run Scenario.texput Scenario.disk
  = Some (Scenario.written Scenario.texput, Scenario.left [] Scenario.texput,
          Scenario.answer 0 [])
  /\ (getattr (LATEX_RUN_COUNT no_run) 1 <= 0)%Z
  /\ exists ev,
       (_process_tex P no_run Scenario.texput (Callable cb) Scenario.disk).1.1
       = EvMkdtemp Scenario.tmp
           :: EvRun (py "cd " ++ [dquote] ++ Scenario.tmp ++ [dquote] ++ py " ")
                (Scenario.written Scenario.texput)
           :: ev.
Proof.
  intros P cb. split; [closed|]. split; [cbn; lia|].
  exact (no_run_only_cd P no_run Scenario.texput cb Scenario.disk
           (Scenario.written Scenario.texput) (Scenario.left [] Scenario.texput)
           (Scenario.answer 0 []) eq_refl ltac:(cbn; lia)).
Defined.
